(** * Right-click actions toolkit: a shallow embedding of the action strategies

    The development follows the Python sources under [actions/]:
    message templates ([format_message_template]), the smoothing router
    ([smooth_geometry]), the sampling searches of the snapping actions, the
    capability declarations made in every [__init__], the guard clauses at
    the head of every [execute], and the edit-session discipline of the
    mutating strategies ([rotate_polygon], [smooth_polygon],
    [move_point_with_click]). *)

From stdpp Require Import gmap strings list.
From Stdlib Require Import Ascii String QArith.

Open Scope string_scope.

(** ** Python outcomes *)

(** The exception classes that the modelled code distinguishes. *)
Inductive PyExn : Type :=
  | KeyError
  | IndexError
  | ValueError
  | TypeError
  | Exception (text : string).

(** [str(e)]. *)
Definition exn_text (e : PyExn) : string :=
  match e with
  | KeyError => "KeyError"
  | IndexError => "IndexError"
  | ValueError => "ValueError"
  | TypeError => "TypeError"
  | Exception text => text
  end.

(** What a call does: it returns a value, raises, or leaves the fragment of
    Python that the model covers. *)
Inductive Outcome (A : Type) : Type :=
  | Returns (a : A)
  | Raises (e : PyExn)
  | OutOfFragment.
Arguments Returns {A} a.
Arguments Raises {A} e.
Arguments OutOfFragment {A}.

(** ** [str.format] called with keyword arguments only *)

Module PyFormat.

(** [Py_ssize_t] maximum of a 64-bit build; [get_integer] refuses indices
    that would overflow it. *)
Definition PY_SSIZE_T_MAX : Z := 9223372036854775807.

Definition is_digit (c : ascii) : bool :=
  (48 <=? nat_of_ascii c)%nat && (nat_of_ascii c <=? 57)%nat.

Fixpoint all_digits (s : string) : bool :=
  match s with
  | "" => true
  | String c rest => is_digit c && all_digits rest
  end.

(** What [get_integer] makes of a field name: the index it writes, no index
    (the name is a keyword), or its ValueError. *)
Inductive Index : Type :=
  | IsIndex (n : Z)
  | NotAnIndex
  | TooManyDigits.

Definition digitval (c : ascii) : Z := (Z.of_nat (nat_of_ascii c) - 48)%Z.

(** [get_integer]: the characters are read from the left; the first one that
    is no decimal digit ends the scan without an error, and the overflow of
    the accumulator is detected before each digit is added, so a long run
    of digits raises before a later letter is seen. *)
Fixpoint get_integer (accumulator : Z) (s : string) : Index :=
  match s with
  | "" => IsIndex accumulator
  | String c rest =>
      if is_digit c then
        if (accumulator >? (PY_SSIZE_T_MAX - digitval c) / 10)%Z
        then TooManyDigits
        else get_integer (accumulator * 10 + digitval c)%Z rest
      else NotAnIndex
  end.

(** Characters that start a conversion, a format specification, an attribute
    or index lookup, or a nested field; and bytes outside ASCII, whose digit
    status the byte-level model cannot decide. A field holding one of them
    is outside the modelled fragment. *)
Definition special (c : ascii) : bool :=
  Ascii.eqb c "{" || Ascii.eqb c "!" || Ascii.eqb c ":" ||
  Ascii.eqb c "." || Ascii.eqb c "[" || (128 <=? nat_of_ascii c)%nat.

(** Prefix literal text to what the rest of the template produced. *)
Definition emit (s : string) (o : Outcome string) : Outcome string :=
  match o with
  | Returns t => Returns (s ++ t)
  | Raises e => Raises e
  | OutOfFragment => OutOfFragment
  end.

(** The value of one replacement field. No positional argument is ever
    passed, so an empty or numeric field name indexes an empty tuple; a
    name that is no index is looked up among the keyword arguments. *)
Definition lookup_field (kwargs : gmap string string) (name : string)
  : Outcome string :=
  match name with
  | "" => Raises IndexError
  | _ =>
      match get_integer 0 name with
      | TooManyDigits => Raises ValueError
      | IsIndex _ => Raises IndexError
      | NotAnIndex =>
          match kwargs !! name with
          | Some v => Returns v
          | None => Raises KeyError
          end
      end
  end.

(** The scanner of [str.format]: literal text with doubled-brace escapes,
    and replacement fields read up to their closing brace. Fields are
    rendered as soon as they are read, so the leftmost error wins. *)
Fixpoint format_text (kwargs : gmap string string) (s : string)
  : Outcome string :=
  match s with
  | "" => Returns ""
  | String c rest =>
      if Ascii.eqb c "{" then
        match rest with
        | "" => Raises ValueError
        | String c' rest' =>
            if Ascii.eqb c' "{" then emit "{" (format_text kwargs rest')
            else format_field kwargs "" rest
        end
      else if Ascii.eqb c "}" then
        match rest with
        | "" => Raises ValueError
        | String c' rest' =>
            if Ascii.eqb c' "}" then emit "}" (format_text kwargs rest')
            else Raises ValueError
        end
      else emit (String c "") (format_text kwargs rest)
  end
with format_field (kwargs : gmap string string) (name : string) (s : string)
  : Outcome string :=
  match s with
  | "" => Raises ValueError
  | String c rest =>
      if Ascii.eqb c "}" then
        match lookup_field kwargs name with
        | Returns v => emit v (format_text kwargs rest)
        | o => o
        end
      else if special c then OutOfFragment
      else format_field kwargs (name ++ String c "") rest
  end.

(** [template.format] applied to the keyword arguments alone, their values
    already rendered as text. *)
Definition format (template : string) (kwargs : gmap string string)
  : Outcome string :=
  format_text kwargs template.

End PyFormat.

(** Values passed as keyword arguments: text, or a number ([int] or
    [float]) over an abstract carrier. *)
Inductive PyVal (Num : Type) : Type :=
  | PyStr (s : string)
  | PyNum (x : Num).
Arguments PyStr {Num} s.
Arguments PyNum {Num} x.

Section MessageTemplates.

Context {Num : Type}.
  (** [format(x, '')] of a number. *)
Variable str_of_num : Num -> string.
  (** [f"{x:.{d}f}"]; [None] when the precision is refused (ValueError). *)
Variable fixed_of_num : Num -> Z -> option string.

Definition render_val (v : PyVal Num) : string :=
    match v with
    | PyStr s => s
    | PyNum x => str_of_num x
    end.

  (** [MovePointAction.format_message_template]: only [KeyError] is caught. *)
Definition format_message_template
      (template : string) (kwargs : gmap string (PyVal Num))
    : Outcome string :=
    match PyFormat.format template (render_val <$> kwargs) with
    | Raises KeyError => Returns template
    | o => o
    end.

  (** [SnapPointToPolygonAction.format_message_template] (the line variant
      is the same text): a numeric [distance_moved] is first rendered with
      the [decimal_places] setting. [decimal_places] is what
      [int(self.get_setting('decimal_places', 2))] evaluates to, an
      exception when the stored value does not convert. *)
Definition snap_format_message_template
      (decimal_places : PyExn + Z)
      (template : string) (kwargs : gmap string (PyVal Num))
    : Outcome string :=
    match kwargs !! "distance_moved" with
    | Some (PyNum x) =>
        match decimal_places with
        | inl e =>
            match e with
            | KeyError => Returns template
            | _ => Raises e
            end
        | inr d =>
            match fixed_of_num x d with
            | None => Raises ValueError
            | Some txt =>
                format_message_template template
                  (<["distance_moved" := PyStr txt]> kwargs)
            end
        end
    | _ => format_message_template template kwargs
    end.

End MessageTemplates.

(** A template written as a sequence of pieces. *)
Inductive Piece : Type :=
  | Lit (s : string)
  | Field (name : string)
  | EscOpen
  | EscClose.

Module Template.

Definition render_piece (p : Piece) : string :=
  match p with
  | Lit s => s
  | Field n => "{" ++ n ++ "}"
  | EscOpen => "{{"
  | EscClose => "}}"
  end.

(** The template text that a sequence of pieces stands for. *)
Fixpoint render (ps : list Piece) : string :=
  match ps with
  | [] => ""
  | p :: ps' => render_piece p ++ render ps'
  end.

Definition substitute_piece (kw : gmap string string) (p : Piece) : string :=
  match p with
  | Lit s => s
  | Field n => default "" (kw !! n)
  | EscOpen => "{"
  | EscClose => "}"
  end.

(** Every field replaced by its argument. *)
Fixpoint substitute (kw : gmap string string) (ps : list Piece) : string :=
  match ps with
  | [] => ""
  | p :: ps' => substitute_piece kw p ++ substitute kw ps'
  end.

Definition is_brace (c : ascii) : bool :=
  Ascii.eqb c "{" || Ascii.eqb c "}".

Fixpoint no_braces (s : string) : bool :=
  match s with
  | "" => true
  | String c rest => negb (is_brace c) && no_braces rest
  end.

Fixpoint plain_chars (s : string) : bool :=
  match s with
  | "" => true
  | String c rest =>
      negb (Ascii.eqb c "}") && negb (PyFormat.special c) && plain_chars rest
  end.

(** A keyword name: not empty, not a number, no markup character. *)
Definition plain_name (n : string) : bool :=
  match n with
  | "" => false
  | _ => plain_chars n && negb (PyFormat.all_digits n)
  end.

(** The number written by the decimal digits that a name begins with,
    [acc] being the number written so far. *)
Fixpoint leading_number (acc : Z) (n : string) : Z :=
  match n with
  | "" => acc
  | String c rest =>
      if PyFormat.is_digit c
      then leading_number (acc * 10 + PyFormat.digitval c)%Z rest
      else acc
  end.

(** A name that [str.format] looks up among the keyword arguments: a plain
    name whose leading digits, if it has any, write a number that fits
    [Py_ssize_t]. *)
Definition keyword_name (n : string) : bool :=
  plain_name n && (leading_number 0 n <=? PyFormat.PY_SSIZE_T_MAX)%Z.

Definition plain_piece (p : Piece) : bool :=
  match p with
  | Lit s => no_braces s
  | Field n => plain_name n
  | _ => true
  end.

Definition plain (ps : list Piece) : bool := forallb plain_piece ps.

Definition keyword_piece (p : Piece) : bool :=
  match p with
  | Field n => keyword_name n
  | _ => plain_piece p
  end.

(** A template of brace-free text, escapes and keyword fields. *)
Definition keyword_template (ps : list Piece) : bool :=
  forallb keyword_piece ps.

Definition field_present (kw : gmap string string) (p : Piece) : bool :=
  match p with
  | Field n => bool_decide (is_Some (kw !! n))
  | _ => true
  end.

(** Every placeholder of the template has an argument. *)
Definition all_present (kw : gmap string string) (ps : list Piece) : bool :=
  forallb (field_present kw) ps.

(** What the docstring promises for a well-formed template: the
    substitution when every placeholder has an argument, the template as it
    is otherwise. *)
Definition substituted_or_unchanged
    (kw : gmap string string) (ps : list Piece) : string :=
  if all_present kw ps then substitute kw ps else render ps.

End Template.

(** ** Geometry objects and the smoothing router of [smooth_polygon] *)

Module Smooth.

(** Python names geometry objects by reference; the store maps each live
    object to its value. *)
Definition ref : Type := positive.

Section Smoothing.

Context {Geom Offset : Type}.
  (** [QgsGeometry.smooth(iterations, offset)] called on an object that
      holds the first argument: the value of the new geometry it returns,
      [inl e] when the binding raises. *)
Variable qgs_smooth : Geom -> Z -> Offset -> PyExn + Geom.
  (** What the object on which [smooth] was called holds after the call.
      QGIS declares the method const; the router is modelled without
      relying on it. *)
Variable smooth_receiver : Geom -> Z -> Offset -> Geom.

  (** A new object holding [g]. *)
Definition alloc (g : Geom) (h : gmap ref Geom) : ref * gmap ref Geom :=
    let r := fresh (dom h) in (r, <[r := g]> h).

  (** [smooth_geometry_chaikin]: copy the argument, call [smooth] on the
      copy, return the object that the call returns. *)
Definition smooth_geometry_chaikin
      (geometry : ref) (iterations : Z) (offset : Offset)
      (h : gmap ref Geom) : Outcome ref * gmap ref Geom :=
    match h !! geometry with
    | None => (Raises TypeError, h)
    | Some g =>
        (* smoothed_geometry = QgsGeometry(geometry) *)
        let '(copy, h1) := alloc g h in
        (* smoothed_geometry = smoothed_geometry.smooth(iterations, offset) *)
        let h2 := <[copy := smooth_receiver g iterations offset]> h1 in
        match qgs_smooth g iterations offset with
        | inl e => (Raises e, h2)
        | inr g' => let '(smoothed, h3) := alloc g' h2 in (Returns smoothed, h3)
        end
    end.

  (** [smooth_geometry]: the router over method names. *)
Definition smooth_geometry
      (geometry : ref) (method : string) (iterations : Z) (offset : Offset)
      (h : gmap ref Geom) : Outcome ref * gmap ref Geom :=
    if String.eqb method "chaikin" then
      smooth_geometry_chaikin geometry iterations offset h
    else
      (* Default to Chaikin if unknown method *)
      smooth_geometry_chaikin geometry iterations offset h.

End Smoothing.

End Smooth.

(** ** Nearest-point searches of the snapping actions

    Coordinates, lengths and distances are Python floats in the source; the
    model computes with exact rationals. *)

Module Snap.

(** [x < y] on numbers. *)
Definition Qltb (x y : Q) : bool :=
  match (x ?= y)%Q with
  | Lt => true
  | _ => false
  end.

(** [d < m] where [m] starts as [float('inf')], written [None]. *)
Definition below (d : Q) (m : option Q) : bool :=
  match m with
  | None => true
  | Some m' => Qltb d m'
  end.

(** The parameters [ratio * length] visited by
    [for i in range(0, n): ratio = i / (n - 1.0)]. *)
Definition sample_positions (n : nat) (length : Q) : list Q :=
  map (fun i : nat =>
         (inject_Z (Z.of_nat i) / inject_Z (Z.of_nat (n - 1)) * length)%Q)
      (seq 0 n).

Section Searches.

Context {Point : Type}.
  (** [QgsPointXY.distance]. *)
Variable distance : Point -> Point -> Q.

  (** One pass of the sampling loop: interpolate, measure, keep the sample
      when it is strictly closer than the best so far. *)
Definition sample_step
      (point : Point) (interpolate : Q -> PyExn + Point)
      (st : PyExn + (option Point * option Q)) (position : Q)
    : PyExn + (option Point * option Q) :=
    match st with
    | inl e => inl e
    | inr (closest, min_distance) =>
        match interpolate position with
        | inl e => inl e
        | inr sample_point =>
            let d := distance point sample_point in
            if below d min_distance then inr (Some sample_point, Some d)
            else inr (closest, min_distance)
        end
    end.

  (** The whole loop, from [closest = None] and [min_distance = inf]. *)
Definition sample_loop
      (point : Point) (interpolate : Q -> PyExn + Point)
      (n : nat) (length : Q) : PyExn + (option Point * option Q) :=
    fold_left (sample_step point interpolate) (sample_positions n length)
              (inr (None, None)).

  (** The exterior ring of a polygon as the code uses it. *)
Record Ring : Type := {
    ring_length : Q;
    ring_interpolate : Q -> PyExn + Point
  }.

Record PolygonGeometry : Type := {
    (** [exteriorRing()]: may raise, may be falsy ([None]). *)
    exteriorRing : PyExn + option Ring;
    (** [centroid().asPoint()]. *)
    centroid : Point
  }.

  (** [SnapPointToPolygonAction._find_closest_point_on_boundary]. The result
      is optional because [closest_point_on_boundary] starts as [None]. *)
Definition _find_closest_point_on_boundary
      (point : Point) (polygon_geometry : PolygonGeometry) : option Point :=
    match exteriorRing polygon_geometry with
    | inl _ => Some (centroid polygon_geometry)
    | inr None => Some (centroid polygon_geometry)
    | inr (Some exterior_ring) =>
        if Qltb 0 (ring_length exterior_ring) then
          (* num_samples = 501 *)
          match sample_loop point (ring_interpolate exterior_ring) 501
                  (ring_length exterior_ring) with
          | inl _ => Some (centroid polygon_geometry)
          | inr (closest_point_on_boundary, _) => closest_point_on_boundary
          end
        else Some (centroid polygon_geometry)
    end.

  (** A line geometry as [_find_closest_line] uses it. Nothing is caught
      there, so its calls are taken to succeed. *)
Record LineGeometry : Type := {
    (** [geometry.distance(QgsGeometry.fromPointXY(point))]. *)
    line_distance : Point -> Q;
    line_length : Q;
    line_interpolate : Q -> Point;
    (** [geometry.vertexAt(0)]. *)
    line_first_vertex : Point
  }.

Record LineFeature : Type := {
    feature_id : Z;
    (** [None]: no geometry, or an empty one. *)
    feature_geometry : option LineGeometry
  }.

Record LineLayer : Type := {
    layer_name : string;
    layer_features : list LineFeature
  }.

  (** Lines 379-399: the point of one line that the search reports. *)
Definition closest_point_on_line
      (point : Point) (geometry : LineGeometry) : option Point :=
    if Qltb 0 (line_length geometry) then
      (* for i in range(0, 101): ratio = i / 100.0 *)
      match sample_loop point (fun t => inr (line_interpolate geometry t)) 101
              (line_length geometry) with
      | inl _ => None
      | inr (closest_point_on_line, _) => closest_point_on_line
      end
    else Some (line_first_vertex geometry).

Definition Closest : Type := LineFeature * LineLayer * option Point * Q.

Definition feature_step
      (point : Point) (max_distance : Q) (layer : LineLayer)
      (closest : option Closest) (feature : LineFeature) : option Closest :=
    match feature_geometry feature with
    | None => closest
    | Some geometry =>
        let d := line_distance geometry point in
        let closest_point_on_line := closest_point_on_line point geometry in
        if Qltb max_distance d then closest
        else if below d (option_map snd closest)
             then Some (feature, layer, closest_point_on_line, d)
             else closest
    end.

  (** [SnapPointToLineAction._find_closest_line]. *)
Definition _find_closest_line
      (point : Point) (line_layers : list LineLayer) (max_distance : Q)
    : option Closest :=
    fold_left
      (fun closest layer =>
         fold_left (feature_step point max_distance layer)
                   (layer_features layer) closest)
      line_layers None.

End Searches.

End Snap.

(** ** Capability declarations

    Every action module builds one instance at import time ("global instance
    for automatic discovery"); its [__init__] fixes the declaration below. *)

Module Capability.

(** What [__init__] declares through [action_id], [enabled] and the four
    setters of the action base class. *)
Record Descriptor : Type := {
  action_id : string;
  enabled : bool;
  scope : string;
  supported_scopes : list string;
  supported_click_types : list string;
  supported_geometry_types : list string
}.

(** [actions/measure_distance.py]. *)
Definition measure_distance : Descriptor := {|
  action_id := "measure_distance";
  enabled := true;
  scope := "universal";
  supported_scopes := ["universal"];
  supported_click_types := ["universal"];
  supported_geometry_types :=
    ["universal"]
|}.

(** [actions/merge_polygon_layer.py]. *)
Definition merge_polygon_layer : Descriptor := {|
  action_id := "merge_polygon_layer";
  enabled := true;
  scope := "layer";
  supported_scopes := ["layer"];
  supported_click_types := ["polygon"; "multipolygon"];
  supported_geometry_types :=
    ["polygon"; "multipolygon"]
|}.

(** [actions/move_line_with_click.py]. *)
Definition move_line_with_click : Descriptor := {|
  action_id := "move_line_with_click";
  enabled := true;
  scope := "feature";
  supported_scopes := ["feature"];
  supported_click_types := ["line"; "multiline"];
  supported_geometry_types :=
    ["line"; "multiline"]
|}.

(** [actions/move_point_by_distance_direction.py]. *)
Definition move_point_by_distance_direction : Descriptor := {|
  action_id := "move_point_by_distance_direction";
  enabled := true;
  scope := "feature";
  supported_scopes := ["feature"];
  supported_click_types := ["point"; "multipoint"];
  supported_geometry_types :=
    ["point"; "multipoint"]
|}.

(** [actions/move_point_to_coordinates.py]. *)
Definition move_point_to_coordinates : Descriptor := {|
  action_id := "move_point_to_coordinates";
  enabled := true;
  scope := "feature";
  supported_scopes := ["feature"];
  supported_click_types := ["point"; "multipoint"];
  supported_geometry_types :=
    ["point"; "multipoint"]
|}.

(** [actions/move_point_with_click.py]. *)
Definition move_point_with_click : Descriptor := {|
  action_id := "move_point_with_click";
  enabled := true;
  scope := "feature";
  supported_scopes := ["feature"];
  supported_click_types := ["point"; "multipoint"];
  supported_geometry_types :=
    ["point"; "multipoint"]
|}.

(** [actions/move_polygon_by_distance_direction.py]. *)
Definition move_polygon_by_distance_direction : Descriptor := {|
  action_id := "move_polygon_by_distance_direction";
  enabled := true;
  scope := "feature";
  supported_scopes := ["feature"];
  supported_click_types := ["polygon"; "multipolygon"];
  supported_geometry_types :=
    ["polygon"; "multipolygon"]
|}.

(** [actions/open_coordinates_in_map.py]. *)
Definition open_coordinates_in_map : Descriptor := {|
  action_id := "open_coordinates_in_map";
  enabled := true;
  scope := "universal";
  supported_scopes := ["universal"];
  supported_click_types := ["universal"];
  supported_geometry_types :=
    ["point"; "multipoint"; "line"; "multiline"; "polygon"; "multipolygon"; "canvas"]
|}.

(** [actions/rotate_line.py]. *)
Definition rotate_line : Descriptor := {|
  action_id := "rotate_line";
  enabled := true;
  scope := "feature";
  supported_scopes := ["feature"];
  supported_click_types := ["line"; "multiline"];
  supported_geometry_types :=
    ["line"; "multiline"]
|}.

(** [actions/rotate_polygon.py]. *)
Definition rotate_polygon : Descriptor := {|
  action_id := "rotate_polygon";
  enabled := true;
  scope := "feature";
  supported_scopes := ["feature"];
  supported_click_types := ["polygon"; "multipolygon"];
  supported_geometry_types :=
    ["polygon"; "multipolygon"]
|}.

(** [actions/scale_line.py]. *)
Definition scale_line : Descriptor := {|
  action_id := "scale_line";
  enabled := true;
  scope := "feature";
  supported_scopes := ["feature"];
  supported_click_types := ["line"; "multiline"];
  supported_geometry_types :=
    ["line"; "multiline"]
|}.

(** [actions/scale_line_layer.py]. *)
Definition scale_line_layer : Descriptor := {|
  action_id := "scale_line_layer";
  enabled := true;
  scope := "layer";
  supported_scopes := ["layer"];
  supported_click_types := ["line"; "multiline"];
  supported_geometry_types :=
    ["line"; "multiline"]
|}.

(** [actions/see_info_polygon.py]. *)
Definition see_info_polygon : Descriptor := {|
  action_id := "see_info_polygon";
  enabled := true;
  scope := "feature";
  supported_scopes := ["feature"];
  supported_click_types := ["polygon"; "multipolygon"];
  supported_geometry_types :=
    ["polygon"; "multipolygon"]
|}.

(** [actions/show_line_layer_segment_lengths.py]. *)
Definition show_line_layer_segment_lengths : Descriptor := {|
  action_id := "show_line_layer_segment_lengths";
  enabled := true;
  scope := "layer";
  supported_scopes := ["layer"];
  supported_click_types := ["line"; "multiline"];
  supported_geometry_types :=
    ["line"; "multiline"]
|}.

(** [actions/show_line_segment_lengths.py]. *)
Definition show_line_segment_lengths : Descriptor := {|
  action_id := "show_line_segment_lengths";
  enabled := true;
  scope := "feature";
  supported_scopes := ["feature"];
  supported_click_types := ["line"; "multiline"];
  supported_geometry_types :=
    ["line"; "multiline"]
|}.

(** [actions/show_polygon_area_layer.py]. *)
Definition show_polygon_area_layer : Descriptor := {|
  action_id := "show_polygon_area_layer";
  enabled := true;
  scope := "feature";
  supported_scopes := ["feature"];
  supported_click_types := ["polygon"; "multipolygon"];
  supported_geometry_types :=
    ["polygon"; "multipolygon"]
|}.

(** [actions/show_polygon_layer_angles.py]. *)
Definition show_polygon_layer_angles : Descriptor := {|
  action_id := "show_polygon_layer_angles";
  enabled := true;
  scope := "layer";
  supported_scopes := ["layer"];
  supported_click_types := ["polygon"; "multipolygon"];
  supported_geometry_types :=
    ["polygon"; "multipolygon"]
|}.

(** [actions/show_polygon_layer_areas.py]. *)
Definition show_polygon_layer_areas : Descriptor := {|
  action_id := "show_polygon_layer_areas";
  enabled := true;
  scope := "layer";
  supported_scopes := ["layer"];
  supported_click_types := ["polygon"; "multipolygon"];
  supported_geometry_types :=
    ["polygon"; "multipolygon"]
|}.

(** [actions/show_polygon_layer_side_lengths.py]. *)
Definition show_polygon_layer_side_lengths : Descriptor := {|
  action_id := "show_polygon_layer_side_lengths";
  enabled := true;
  scope := "layer";
  supported_scopes := ["layer"];
  supported_click_types := ["polygon"; "multipolygon"];
  supported_geometry_types :=
    ["polygon"; "multipolygon"]
|}.

(** [actions/smooth_polygon.py]. *)
Definition smooth_polygon : Descriptor := {|
  action_id := "smooth_polygon";
  enabled := true;
  scope := "feature";
  supported_scopes := ["feature"];
  supported_click_types := ["polygon"; "multipolygon"];
  supported_geometry_types :=
    ["polygon"; "multipolygon"]
|}.

(** [actions/snap_point_to_line.py]. *)
Definition snap_point_to_line : Descriptor := {|
  action_id := "snap_point_to_line";
  enabled := true;
  scope := "feature";
  supported_scopes := ["feature"];
  supported_click_types := ["point"; "multipoint"];
  supported_geometry_types :=
    ["point"; "multipoint"]
|}.

(** [actions/snap_point_to_polygon.py]. *)
Definition snap_point_to_polygon : Descriptor := {|
  action_id := "snap_point_to_polygon";
  enabled := true;
  scope := "feature";
  supported_scopes := ["feature"];
  supported_click_types := ["point"; "multipoint"];
  supported_geometry_types :=
    ["point"; "multipoint"]
|}.

(** [actions/split_point_layer_by_attribute.py]. *)
Definition split_point_layer_by_attribute : Descriptor := {|
  action_id := "split_point_layer_by_attribute";
  enabled := true;
  scope := "layer";
  supported_scopes := ["layer"];
  supported_click_types := ["point"; "multipoint"];
  supported_geometry_types :=
    ["point"; "multipoint"]
|}.

(** [actions/take_canvas_screenshot.py]. *)
Definition take_canvas_screenshot : Descriptor := {|
  action_id := "take_canvas_screenshot";
  enabled := true;
  scope := "universal";
  supported_scopes := ["universal"];
  supported_click_types := ["universal"];
  supported_geometry_types :=
    ["universal"]
|}.

(** [actions/toggle_all_layers.py]. *)
Definition toggle_all_layers : Descriptor := {|
  action_id := "toggle_all_layers";
  enabled := true;
  scope := "universal";
  supported_scopes := ["universal"];
  supported_click_types := ["universal"];
  supported_geometry_types :=
    ["universal"]
|}.

(** [actions/toggle_point_labels.py]. *)
Definition toggle_point_labels : Descriptor := {|
  action_id := "toggle_point_labels";
  enabled := true;
  scope := "layer";
  supported_scopes := ["layer"];
  supported_click_types := ["point"; "multipoint"];
  supported_geometry_types :=
    ["point"; "multipoint"]
|}.

(** [actions/zoom_to_line.py]. *)
Definition zoom_to_line : Descriptor := {|
  action_id := "zoom_to_line";
  enabled := true;
  scope := "feature";
  supported_scopes := ["feature"];
  supported_click_types := ["line"; "multiline"];
  supported_geometry_types :=
    ["line"; "multiline"]
|}.

(** [actions/zoom_to_line_layer.py]. *)
Definition zoom_to_line_layer : Descriptor := {|
  action_id := "zoom_to_line_layer";
  enabled := true;
  scope := "layer";
  supported_scopes := ["layer"];
  supported_click_types := ["line"; "multiline"];
  supported_geometry_types :=
    ["line"; "multiline"]
|}.

(** [actions/zoom_to_point.py]. *)
Definition zoom_to_point : Descriptor := {|
  action_id := "zoom_to_point";
  enabled := true;
  scope := "feature";
  supported_scopes := ["feature"];
  supported_click_types := ["point"; "multipoint"];
  supported_geometry_types :=
    ["point"; "multipoint"]
|}.

(** [actions/zoom_to_polygon.py]. *)
Definition zoom_to_polygon : Descriptor := {|
  action_id := "zoom_to_polygon";
  enabled := true;
  scope := "feature";
  supported_scopes := ["feature"];
  supported_click_types := ["polygon"; "multipolygon"];
  supported_geometry_types :=
    ["polygon"; "multipolygon"]
|}.

(** [actions/zoom_to_visible_data_layers.py]. *)
Definition zoom_to_visible_data_layers : Descriptor := {|
  action_id := "zoom_to_visible_data_layers";
  enabled := true;
  scope := "universal";
  supported_scopes := ["universal"];
  supported_click_types := ["universal"];
  supported_geometry_types :=
    ["universal"]
|}.

(** The instances created for discovery, one per module. *)
Definition discovered_actions : list Descriptor :=
  [measure_distance;
   merge_polygon_layer;
   move_line_with_click;
   move_point_by_distance_direction;
   move_point_to_coordinates;
   move_point_with_click;
   move_polygon_by_distance_direction;
   open_coordinates_in_map;
   rotate_line;
   rotate_polygon;
   scale_line;
   scale_line_layer;
   see_info_polygon;
   show_line_layer_segment_lengths;
   show_line_segment_lengths;
   show_polygon_area_layer;
   show_polygon_layer_angles;
   show_polygon_layer_areas;
   show_polygon_layer_side_lengths;
   smooth_polygon;
   snap_point_to_line;
   snap_point_to_polygon;
   split_point_layer_by_attribute;
   take_canvas_screenshot;
   toggle_all_layers;
   toggle_point_labels;
   zoom_to_line;
   zoom_to_line_layer;
   zoom_to_point;
   zoom_to_polygon;
   zoom_to_visible_data_layers].

(** The closed vocabulary of geometry-category tags. *)
Definition concrete_categories : list string :=
  ["point"; "multipoint"; "line"; "multiline"; "polygon"; "multipolygon"].

Definition vocabulary : list string := concrete_categories ++ ["universal"].

Definition known_tag (t : string) : bool := bool_decide (t ∈ vocabulary).

(** Every declared tag is a word of the vocabulary. *)
Definition tags_known (d : Descriptor) : bool :=
  forallb known_tag (supported_click_types d)
  && forallb known_tag (supported_geometry_types d).

(** The type set is exactly [{universal}]. *)
Definition only_universal (tags : list string) : bool :=
  bool_decide ((list_to_set tags : gset string) = {["universal"]}).

Definition has_concrete (tags : list string) : bool :=
  existsb (fun t => bool_decide (t ∈ concrete_categories)) tags.

(** The scope/type-set invariant of a declaration. *)
Definition scope_type_invariant (d : Descriptor) : bool :=
  if String.eqb (scope d) "universal" then
    only_universal (supported_click_types d)
    && only_universal (supported_geometry_types d)
  else if String.eqb (scope d) "layer" || String.eqb (scope d) "feature" then
    has_concrete (supported_click_types d)
    && has_concrete (supported_geometry_types d)
  else true.

End Capability.

(** ** Statements that return early, raise, and run [finally] blocks *)

Module Py.

(** How a block of statements ends: it falls through with a value, executes
    [return], or raises. *)
Inductive Flow (A : Type) : Type :=
  | Next (a : A)
  | Return
  | Raise (e : PyExn).
Arguments Next {A} a.
Arguments Return {A}.
Arguments Raise {A} e.

(** A block run against a world of type [W]. *)
Definition M (W A : Type) : Type := W -> Flow A * W.

Section Ops.

Context {W : Type}.

Definition ret {A : Type} (a : A) : M W A := fun w => (Next a, w).

Definition bind {A B : Type} (m : M W A) (k : A -> M W B) : M W B :=
    fun w =>
      match m w with
      | (Next a, w1) => k a w1
      | (Return, w1) => (Return, w1)
      | (Raise e, w1) => (Raise e, w1)
      end.

  (** The statement [return]. *)
Definition return_ {A : Type} : M W A := fun w => (Return, w).

Definition raise {A : Type} (e : PyExn) : M W A := fun w => (Raise e, w).

  (** [if b: m]. *)
Definition when (b : bool) (m : M W unit) : M W unit :=
    if b then m else ret tt.

  (** A value that may be an exception. *)
Definition lift {A : Type} (r : PyExn + A) : M W A :=
    match r with
    | inl e => raise e
    | inr a => ret a
    end.

  (** [try: body / except (classes) as e: handler]. *)
Definition try_except
      (body : M W unit) (caught : PyExn -> bool) (handler : PyExn -> M W unit)
    : M W unit :=
    fun w =>
      match body w with
      | (Raise e, w1) => if caught e then handler e w1 else (Raise e, w1)
      | r => r
      end.

  (** [try: body / except Exception as e: handler / finally: final]. The
      [finally] block runs however the rest ended, and what was pending (a
      [return], an exception) resumes after it unless the block itself
      returns or raises. *)
Definition try_except_finally
      (body : M W unit) (handler : PyExn -> M W unit) (final : M W unit)
    : M W unit :=
    fun w =>
      let '(f1, w1) := body w in
      let '(f2, w2) :=
        match f1 with
        | Raise e => handler e w1
        | _ => (f1, w1)
        end in
      let '(f3, w3) := final w2 in
      match f3 with
      | Next _ => (f2, w3)
      | _ => (f3, w3)
      end.

End Ops.

End Py.

Notation "x <- m ;; k" := (Py.bind m (fun x => k))
  (at level 100, m at next level, right associativity).
Notation "m ;; k" := (Py.bind m (fun _ => k))
  (at level 100, right associativity).

(** ** Layers, edit sessions and what a run leaves behind *)

Module Qgis.

Inductive GeometryKind : Type :=
  | PointGeometry
  | LineGeometry
  | PolygonGeometry.

(** [kind == QgsWkbTypes.PolygonGeometry]. *)
Definition is_polygon (kind : GeometryKind) : bool :=
  match kind with
  | PolygonGeometry => true
  | _ => false
  end.

(** A feature as the strategies read it: its id, its geometry ([None] when
    the geometry object is null) and the geometry's type. *)
Record Feature (Geom : Type) : Type := {
  fid : Z;
  geometry : option Geom;
  geometry_kind : GeometryKind
}.
Arguments fid {Geom} _.
Arguments geometry {Geom} _.
Arguments geometry_kind {Geom} _.

(** A vector layer: the features in its data source, and the edit session,
    the staging copy in which changes are buffered until they are committed.
    The layer is editable exactly while a session exists. *)
Record Layer (Geom : Type) : Type := {
  stored : gmap Z Geom;
  session : option (gmap Z Geom)
}.
Arguments stored {Geom} _.
Arguments session {Geom} _.

Definition isEditable {Geom : Type} (l : Layer Geom) : bool :=
  match session l with
  | Some _ => true
  | None => false
  end.

(** What the data provider answers to a call. *)
Inductive Reply : Type :=
  | Accept
  | Reject
  | Throw (e : PyExn).

(** The provider's answers during one run. *)
Record Provider : Type := {
  start_editing : bool;
  update_feature : Reply;
  add_feature : Reply;
  commit : bool
}.

(** The calls a run makes, in order: notifications, edit-session steps and
    provider calls. *)
Inductive Event : Type :=
  | ShowError (title text : string)
  | ShowInfo (title text : string)
  | ConfirmAction (title : string) (answer : bool)
  | HandleEditMode (result : option (bool * bool))
  | UpdateFeature (id : Z) (accepted : bool)
  | AddFeature (accepted : bool)
  | CommitChanges (ok : bool)
  | RollbackChanges
  | ExitEditMode (edit_mode_entered : bool).

Record World (Geom : Type) : Type := {
  layer : Layer Geom;
  log : list Event
}.
Arguments layer {Geom} _.
Arguments log {Geom} _.

Section Calls.

Context {Geom : Type}.

Definition emit (ev : Event) : Py.M (World Geom) unit :=
    fun w => (Py.Next tt, {| layer := layer w; log := log w ++ [ev] |}).

Definition set_layer (l : Layer Geom) : Py.M (World Geom) unit :=
    fun w => (Py.Next tt, {| layer := l; log := log w |}).

Definition get_layer : Py.M (World Geom) (Layer Geom) :=
    fun w => (Py.Next (layer w), w).

  (** Modelled from the spec: the notification surface of the action base
      class ([show_error], [show_info], [confirm_action]), which the sources
      call but do not define. Each call is recorded. *)
Definition show_error (title text : string) : Py.M (World Geom) unit :=
    emit (ShowError title text).

Definition show_info (title text : string) : Py.M (World Geom) unit :=
    emit (ShowInfo title text).

Definition confirm_action (title : string) (answer : bool)
    : Py.M (World Geom) bool :=
    emit (ConfirmAction title answer) ;; Py.ret answer.

  (** [layer.updateFeature(feature)] with the feature's geometry set to [g]:
      a change of the session's copy when the provider accepts it and the
      layer is editable, no change otherwise. *)
Definition updateFeature (p : Provider) (id : Z) (g : Geom)
    : Py.M (World Geom) bool :=
    match update_feature p with
    | Throw e => Py.raise e
    | Reject => emit (UpdateFeature id false) ;; Py.ret false
    | Accept =>
        l <- get_layer ;;
        match session l with
        | None => emit (UpdateFeature id false) ;; Py.ret false
        | Some buffer =>
            set_layer {| stored := stored l;
                         session := Some (<[id := g]> buffer) |} ;;
            emit (UpdateFeature id true) ;; Py.ret true
        end
    end.

  (** [layer.addFeature(new_feature)] for a feature whose id was reset: the
      session gives it an unused id. *)
Definition addFeature (p : Provider) (g : Geom)
    : Py.M (World Geom) (option Z) :=
    match add_feature p with
    | Throw e => Py.raise e
    | Reject => emit (AddFeature false) ;; Py.ret None
    | Accept =>
        l <- get_layer ;;
        match session l with
        | None => emit (AddFeature false) ;; Py.ret None
        | Some buffer =>
            let id := fresh (dom buffer) in
            set_layer {| stored := stored l;
                         session := Some (<[id := g]> buffer) |} ;;
            emit (AddFeature true) ;; Py.ret (Some id)
        end
    end.

End Calls.

End Qgis.

(** ** Settings and the head of every [execute] *)

Module Settings.

(** A value kept in the settings store. *)
Inductive Value : Type :=
  | VBool (b : bool)
  | VInt (z : Z)
  | VFloat (q : Q)
  | VStr (s : string)
  | VNone.

(** The key under which [get_setting] looks a setting up. *)
Definition key (action_id setting_name : string) : string :=
  "RightClickUtilities/" ++ action_id ++ "/" ++ setting_name.

(** [get_setting(setting_name, default_value)]: the stored value, the default
    when the key is absent. *)
Definition get_setting
    (store : gmap string Value) (action_id setting_name : string)
    (default_value : Value) : Value :=
  default default_value (store !! key action_id setting_name).

(** The conversions applied to what [get_setting] returns. *)
Inductive Conv : Type :=
  | ToBool
  | ToInt
  | ToFloat
  | ToStr.

(** [bool(v)]; it never raises. *)
Definition py_bool (v : Value) : bool :=
  match v with
  | VBool b => b
  | VInt z => negb (z =? 0)%Z
  | VFloat q => negb (Qeq_bool q 0)
  | VStr s => negb (String.eqb s "")
  | VNone => false
  end.

Section Conversions.

  (** What [float] and [int] make of a string, when they accept it. *)
Variable parse_float : string -> option Q.
Variable parse_int : string -> option Z.

  (** [float(v)]. *)
Definition py_float (v : Value) : PyExn + Q :=
    match v with
    | VBool b => inr (if b then 1 else 0)%Q
    | VInt z => inr (inject_Z z)
    | VFloat q => inr q
    | VStr s =>
        match parse_float s with
        | Some q => inr q
        | None => inl ValueError
        end
    | VNone => inl TypeError
    end.

  (** [int(v)]; a float is truncated toward zero. *)
Definition py_int (v : Value) : PyExn + Z :=
    match v with
    | VBool b => inr (if b then 1 else 0)%Z
    | VInt z => inr z
    | VFloat q => inr (Z.quot (Qnum q) (Z.pos (Qden q)))
    | VStr s =>
        match parse_int s with
        | Some z => inr z
        | None => inl ValueError
        end
    | VNone => inl TypeError
    end.

  (** [str(v)]; [repr] is the text of a value that is not a string. *)
Variable repr : Value -> string.

Definition py_str (v : Value) : string :=
    match v with
    | VStr s => s
    | _ => repr v
    end.

  (** Whether a conversion goes through; [bool] and [str] always do. *)
Definition convert (c : Conv) (v : Value) : PyExn + unit :=
    match c with
    | ToBool => inr tt
    | ToStr => inr tt
    | ToInt => match py_int v with inl e => inl e | inr _ => inr tt end
    | ToFloat => match py_float v with inl e => inl e | inr _ => inr tt end
    end.

  (** The conversions of the [try] block, in order, up to the first that
      raises. *)
Fixpoint read_all
      (store : gmap string Value) (action_id : string)
      (reads : list (Conv * string * Value)) : PyExn + unit :=
    match reads with
    | [] => inr tt
    | (c, name, default_value) :: rest =>
        match convert c (get_setting store action_id name default_value) with
        | inl e => inl e
        | inr _ => read_all store action_id rest
        end
    end.

End Conversions.

End Settings.

Module Heads.
Import Settings.

(** The head shared by the [execute] of every feature-scope action: the
    settings are converted inside [try ... except (ValueError, TypeError)],
    then an empty [detected_features] ends the call. *)
Record Head : Type := {
  head_id : string;
  (** The conversions of the [try] block. *)
  head_reads : list (Conv * string * Value);
  (** The text shown when no feature was detected. *)
  head_message : string;
  (** The setting that gates the message, where the source has one. *)
  head_gate : option (string * Value)
}.

(** The default that the [try] block gives for a setting. *)
Definition default_of (h : Head) (name : string) : Value :=
  match find (fun r => String.eqb r.1.2 name) (head_reads h) with
  | Some r => r.2
  | None => VNone
  end.

(** The value that the [try] block reads for a setting. *)
Definition setting (h : Head) (store : gmap string Value) (name : string)
  : Value :=
  get_setting store (head_id h) name (default_of h name).

Definition caught_by_head (e : PyExn) : bool :=
  match e with
  | ValueError | TypeError => true
  | _ => false
  end.

(** Whether the guard reports: always, unless the source tests a setting. *)
Definition show_errors (h : Head) (store : gmap string Value) : bool :=
  match head_gate h with
  | None => true
  | Some (name, default_value) =>
      py_bool (get_setting store (head_id h) name default_value)
  end.

Section Execute.

Context {Geom Detected : Type}.
Variable parse_float : string -> option Q.
Variable parse_int : string -> option Z.

  (** [execute] up to and including the test of [detected_features]: it
      returns there when the sequence is empty, and falls through to the
      rest of the body otherwise. *)
Definition execute_head
      (h : Head) (store : gmap string Value) (detected_features : list Detected)
    : Py.M (Qgis.World Geom) unit :=
    Py.try_except
      (Py.lift (read_all parse_float parse_int store (head_id h) (head_reads h)))
      caught_by_head
      (fun e =>
         Qgis.show_error "Error" ("Invalid setting values: " ++ exn_text e) ;;
         Py.return_) ;;
    match detected_features with
    | [] =>
        Py.when (show_errors h store)
                (Qgis.show_error "Error" (head_message h)) ;;
        Py.return_
    | _ => Py.ret tt
    end.

End Execute.

(** Head of [execute] in [actions/move_line_with_click.py]. *)
Definition move_line_with_click : Head := {|
  head_id := "move_line_with_click";
  head_reads :=
    [(ToBool, "confirm_move", VBool false);
     (ToStr, "confirmation_message_template", VStr "Move line feature ID {feature_id} from layer '{layer_name}'?");
     (ToBool, "show_success_message", VBool true);
     (ToStr, "success_message_template", VStr "Line feature ID {feature_id} moved successfully");
     (ToBool, "show_cancellation_message", VBool true);
     (ToBool, "auto_commit_changes", VBool true);
     (ToBool, "handle_edit_mode_automatically", VBool true);
     (ToBool, "rollback_on_error", VBool true);
     (ToBool, "show_line_length_info", VBool false);
     (ToBool, "ask_create_copy", VBool true);
     (ToStr, "default_copy_choice", VStr "ask");
     (ToBool, "show_copy_info_in_messages", VBool true);
     (ToBool, "use_unified_dialog", VBool true)];
  head_message := "No line features found at this location";
  head_gate := None
|}.

(** Head of [execute] in [actions/move_point_by_distance_direction.py]. *)
Definition move_point_by_distance_direction : Head := {|
  head_id := "move_point_by_distance_direction";
  head_reads :=
    [(ToBool, "confirm_move", VBool true);
     (ToStr, "confirmation_message_template", VStr "Move point feature ID {feature_id} from layer '{layer_name}' by {distance} units at {direction}°?");
     (ToBool, "show_success_message", VBool true);
     (ToStr, "success_message_template", VStr "Point feature ID {feature_id} moved successfully by {distance} units at {direction}°");
     (ToBool, "auto_commit_changes", VBool true);
     (ToBool, "handle_edit_mode_automatically", VBool true);
     (ToBool, "rollback_on_error", VBool true);
     (ToBool, "show_coordinate_info", VBool true);
     (ToFloat, "default_distance", VFloat (100 # 1));
     (ToFloat, "default_direction", VFloat (0 # 1));
     (ToBool, "ask_create_copy", VBool true);
     (ToStr, "default_copy_choice", VStr "ask");
     (ToBool, "show_copy_info_in_messages", VBool true);
     (ToBool, "use_unified_dialog", VBool true)];
  head_message := "No point features found at this location";
  head_gate := None
|}.

(** Head of [execute] in [actions/move_point_to_coordinates.py]. *)
Definition move_point_to_coordinates : Head := {|
  head_id := "move_point_to_coordinates";
  head_reads :=
    [(ToInt, "coordinate_decimals", VInt 6);
     (ToBool, "use_current_coordinates_as_default", VBool true);
     (ToBool, "confirm_before_move", VBool false);
     (ToBool, "show_success_message", VBool true);
     (ToBool, "show_coordinate_info", VBool true);
     (ToBool, "auto_commit_changes", VBool true);
     (ToBool, "handle_edit_mode_automatically", VBool true);
     (ToBool, "rollback_on_error", VBool true);
     (ToStr, "input_crs_mode", VStr "layer_crs");
     (ToBool, "show_crs_warning", VBool true);
     (ToBool, "ask_create_copy", VBool true);
     (ToStr, "default_copy_choice", VStr "ask");
     (ToBool, "show_copy_info_in_messages", VBool true);
     (ToBool, "use_unified_dialog", VBool true)];
  head_message := "No point features found at this location";
  head_gate := None
|}.

(** Head of [execute] in [actions/move_point_with_click.py]. *)
Definition move_point_with_click : Head := {|
  head_id := "move_point_with_click";
  head_reads :=
    [(ToBool, "confirm_move", VBool false);
     (ToStr, "confirmation_message_template", VStr "Move point feature ID {feature_id} from layer '{layer_name}'?");
     (ToBool, "show_success_message", VBool true);
     (ToStr, "success_message_template", VStr "Point feature ID {feature_id} moved successfully");
     (ToBool, "show_cancellation_message", VBool true);
     (ToBool, "auto_commit_changes", VBool true);
     (ToBool, "handle_edit_mode_automatically", VBool true);
     (ToBool, "rollback_on_error", VBool true);
     (ToBool, "show_coordinate_info", VBool false);
     (ToBool, "ask_create_copy", VBool true);
     (ToStr, "default_copy_choice", VStr "ask");
     (ToBool, "show_copy_info_in_messages", VBool true);
     (ToBool, "use_unified_dialog", VBool true)];
  head_message := "No point features found at this location";
  head_gate := None
|}.

(** Head of [execute] in [actions/move_polygon_by_distance_direction.py]. *)
Definition move_polygon_by_distance_direction : Head := {|
  head_id := "move_polygon_by_distance_direction";
  head_reads :=
    [(ToBool, "confirm_move", VBool true);
     (ToStr, "confirmation_message_template", VStr "Move polygon feature ID {feature_id} from layer '{layer_name}' by {distance} units at {direction}°?");
     (ToBool, "show_success_message", VBool true);
     (ToStr, "success_message_template", VStr "Polygon feature ID {feature_id} moved successfully by {distance} units at {direction}°");
     (ToBool, "auto_commit_changes", VBool true);
     (ToBool, "handle_edit_mode_automatically", VBool true);
     (ToBool, "rollback_on_error", VBool true);
     (ToBool, "show_polygon_area_info", VBool true);
     (ToFloat, "default_distance", VFloat (100 # 1));
     (ToFloat, "default_direction", VFloat (0 # 1));
     (ToBool, "ask_create_copy", VBool true);
     (ToStr, "default_copy_choice", VStr "ask");
     (ToBool, "show_copy_info_in_messages", VBool true);
     (ToBool, "use_unified_dialog", VBool true)];
  head_message := "No polygon features found at this location";
  head_gate := None
|}.

(** Head of [execute] in [actions/rotate_line.py]. *)
Definition rotate_line : Head := {|
  head_id := "rotate_line";
  head_reads :=
    [(ToFloat, "default_rotation_angle", VFloat (0 # 1));
     (ToBool, "confirm_before_rotate", VBool false);
     (ToBool, "show_success_message", VBool true);
     (ToBool, "show_line_length_info", VBool true);
     (ToBool, "auto_commit_changes", VBool true);
     (ToBool, "handle_edit_mode_automatically", VBool true);
     (ToBool, "rollback_on_error", VBool true)];
  head_message := "No line features found at this location";
  head_gate := None
|}.

(** Head of [execute] in [actions/rotate_polygon.py]. *)
Definition rotate_polygon : Head := {|
  head_id := "rotate_polygon";
  head_reads :=
    [(ToFloat, "default_rotation_angle", VFloat (0 # 1));
     (ToBool, "confirm_before_rotate", VBool false);
     (ToBool, "show_success_message", VBool true);
     (ToBool, "show_polygon_area_info", VBool true);
     (ToBool, "auto_commit_changes", VBool true);
     (ToBool, "handle_edit_mode_automatically", VBool true);
     (ToBool, "rollback_on_error", VBool true)];
  head_message := "No polygon features found at this location";
  head_gate := None
|}.

(** Head of [execute] in [actions/scale_line.py]. *)
Definition scale_line : Head := {|
  head_id := "scale_line";
  head_reads :=
    [(ToFloat, "default_scale_factor", VFloat (1 # 1));
     (ToBool, "confirm_before_scale", VBool false);
     (ToBool, "show_success_message", VBool true);
     (ToBool, "show_line_length_info", VBool true);
     (ToBool, "auto_commit_changes", VBool true);
     (ToBool, "handle_edit_mode_automatically", VBool true);
     (ToBool, "rollback_on_error", VBool true)];
  head_message := "No line features found at this location";
  head_gate := None
|}.

(** Head of [execute] in [actions/see_info_polygon.py]. *)
Definition see_info_polygon : Head := {|
  head_id := "see_info_polygon";
  head_reads :=
    [(ToBool, "show_creation_info", VBool true);
     (ToBool, "show_modification_info", VBool true);
     (ToBool, "show_audit_fields", VBool true);
     (ToBool, "show_edit_buffer_changes", VBool true);
     (ToBool, "show_current_state", VBool true);
     (ToBool, "show_geometry_history", VBool true);
     (ToBool, "show_attribute_history", VBool true);
     (ToStr, "date_format", VStr "%Y-%m-%d %H:%M:%S");
     (ToBool, "show_timestamps", VBool true);
     (ToBool, "show_field_names", VBool true);
     (ToBool, "open_in_dialog", VBool true);
     (ToBool, "copy_to_clipboard", VBool false)];
  head_message := "No polygon features found at this location";
  head_gate := None
|}.

(** Head of [execute] in [actions/show_line_segment_lengths.py]. *)
Definition show_line_segment_lengths : Head := {|
  head_id := "show_line_segment_lengths";
  head_reads :=
    [(ToStr, "layer_storage_type", VStr "temporary");
     (ToStr, "layer_name_template", VStr "Segment Lengths_{feature_id}");
     (ToBool, "add_to_project", VBool true);
     (ToInt, "decimal_places", VInt 2);
     (ToFloat, "label_size", VFloat (10 # 1));
     (ToStr, "label_color", VStr "#000000");
     (ToStr, "label_placement", VStr "around");
     (ToBool, "include_segment_index", VBool false);
     (ToBool, "include_total_length", VBool true);
     (ToBool, "zoom_to_layer", VBool true);
     (ToBool, "show_success_message", VBool true)];
  head_message := "No line features found at this location";
  head_gate := None
|}.

(** Head of [execute] in [actions/show_polygon_area_layer.py]. *)
Definition show_polygon_area_layer : Head := {|
  head_id := "show_polygon_area_layer";
  head_reads :=
    [(ToStr, "layer_storage_type", VStr "temporary");
     (ToStr, "layer_name_template", VStr "Polygon Area_{feature_id}");
     (ToBool, "add_to_project", VBool true);
     (ToInt, "decimal_places", VInt 2);
     (ToFloat, "label_size", VFloat (10 # 1));
     (ToStr, "label_color", VStr "#000000");
     (ToStr, "label_placement", VStr "around");
     (ToBool, "show_units", VBool false);
     (ToBool, "zoom_to_layer", VBool true);
     (ToBool, "show_success_message", VBool false)];
  head_message := "No polygon features found at this location";
  head_gate := None
|}.

(** Head of [execute] in [actions/smooth_polygon.py]. *)
Definition smooth_polygon : Head := {|
  head_id := "smooth_polygon";
  head_reads :=
    [(ToInt, "default_iterations", VInt 1);
     (ToFloat, "default_offset", VFloat (1 # 4));
     (ToStr, "smoothing_method", VStr "chaikin");
     (ToBool, "ask_create_copy", VBool true);
     (ToStr, "default_copy_choice", VStr "ask");
     (ToBool, "show_copy_info_in_messages", VBool true);
     (ToBool, "use_unified_dialog", VBool true);
     (ToBool, "confirm_before_smooth", VBool false);
     (ToBool, "show_success_message", VBool true);
     (ToBool, "show_polygon_area_info", VBool true);
     (ToBool, "auto_commit_changes", VBool true);
     (ToBool, "handle_edit_mode_automatically", VBool true);
     (ToBool, "rollback_on_error", VBool true)];
  head_message := "No polygon features found at this location";
  head_gate := None
|}.

(** Head of [execute] in [actions/snap_point_to_line.py]. *)
Definition snap_point_to_line : Head := {|
  head_id := "snap_point_to_line";
  head_reads :=
    [(ToBool, "confirm_snap", VBool true);
     (ToStr, "confirmation_message_template", VStr "Snap point feature ID {feature_id} to the closest line?");
     (ToBool, "show_success_message", VBool true);
     (ToStr, "success_message_template", VStr "Point snapped to line successfully. Distance moved: {distance_moved} map units");
     (ToBool, "auto_commit_changes", VBool true);
     (ToBool, "handle_edit_mode_automatically", VBool true);
     (ToBool, "rollback_on_error", VBool true);
     (ToBool, "include_invisible_line_layers", VBool false);
     (ToBool, "exclude_current_layer", VBool true);
     (ToStr, "line_layer_name_filter", VStr "");
     (ToFloat, "maximum_snap_distance", VFloat (1000 # 1));
     (ToInt, "decimal_places", VInt 2);
     (ToBool, "show_closest_line_info", VBool true);
     (ToBool, "show_coordinate_info", VBool false);
     (ToBool, "show_crs_info", VBool false)];
  head_message := "No point features found at this location";
  head_gate := None
|}.

(** Head of [execute] in [actions/snap_point_to_polygon.py]. *)
Definition snap_point_to_polygon : Head := {|
  head_id := "snap_point_to_polygon";
  head_reads :=
    [(ToBool, "confirm_snap", VBool true);
     (ToStr, "confirmation_message_template", VStr "Snap point feature ID {feature_id} to the closest polygon?");
     (ToBool, "show_success_message", VBool true);
     (ToStr, "success_message_template", VStr "Point snapped to polygon successfully. Distance moved: {distance_moved} map units");
     (ToBool, "auto_commit_changes", VBool true);
     (ToBool, "handle_edit_mode_automatically", VBool true);
     (ToBool, "rollback_on_error", VBool true);
     (ToBool, "include_invisible_polygon_layers", VBool false);
     (ToBool, "exclude_current_layer", VBool true);
     (ToStr, "polygon_layer_name_filter", VStr "");
     (ToFloat, "maximum_snap_distance", VFloat (1000 # 1));
     (ToInt, "decimal_places", VInt 2);
     (ToBool, "snap_to_centroid", VBool true);
     (ToBool, "snap_to_boundary", VBool false);
     (ToBool, "prefer_centroid_over_boundary", VBool true);
     (ToBool, "show_closest_polygon_info", VBool true);
     (ToBool, "show_coordinate_info", VBool false);
     (ToBool, "show_crs_info", VBool false)];
  head_message := "No point features found at this location";
  head_gate := None
|}.

(** Head of [execute] in [actions/zoom_to_line.py]. *)
Definition zoom_to_line : Head := {|
  head_id := "zoom_to_line";
  head_reads :=
    [(ToFloat, "buffer_percentage", VFloat (10 # 1));
     (ToFloat, "minimum_zoom_level", VFloat (0 # 1));
     (ToFloat, "maximum_zoom_level", VFloat (1000000 # 1));
     (ToBool, "show_zoom_info", VBool false);
     (ToBool, "smooth_zoom", VBool true);
     (ToInt, "zoom_duration", VInt 500)];
  head_message := "No line features found at this location";
  head_gate := None
|}.

(** Head of [execute] in [actions/zoom_to_point.py]. *)
Definition zoom_to_point : Head := {|
  head_id := "zoom_to_point";
  head_reads :=
    [(ToFloat, "zoom_radius", VFloat (400 # 1));
     (ToFloat, "minimum_zoom_radius", VFloat (50 # 1));
     (ToFloat, "maximum_zoom_radius", VFloat (5000 # 1));
     (ToBool, "show_zoom_info", VBool false);
     (ToBool, "smooth_zoom", VBool true);
     (ToInt, "zoom_duration", VInt 500);
     (ToBool, "center_on_point", VBool true)];
  head_message := "No point features found at this location";
  head_gate := None
|}.

(** Head of [execute] in [actions/zoom_to_polygon.py]. *)
Definition zoom_to_polygon : Head := {|
  head_id := "zoom_to_polygon";
  head_reads :=
    [(ToFloat, "buffer_percentage", VFloat (10 # 1));
     (ToFloat, "minimum_buffer_percentage", VFloat (1 # 1));
     (ToFloat, "maximum_buffer_percentage", VFloat (50 # 1));
     (ToFloat, "minimum_zoom_level", VFloat (0 # 1));
     (ToFloat, "maximum_zoom_level", VFloat (1000000 # 1));
     (ToBool, "show_zoom_info", VBool false);
     (ToBool, "smooth_zoom", VBool true);
     (ToInt, "zoom_duration", VInt 500);
     (ToBool, "center_on_feature", VBool true);
     (ToBool, "show_error_messages", VBool true)];
  head_message := "No polygon features found at this location";
  head_gate := Some ("show_error_messages", VBool true)
|}.

(** The feature-scope actions. *)
Definition feature_scope_heads : list Head :=
  [move_line_with_click;
   move_point_by_distance_direction;
   move_point_to_coordinates;
   move_point_with_click;
   move_polygon_by_distance_direction;
   rotate_line;
   rotate_polygon;
   scale_line;
   see_info_polygon;
   show_line_segment_lengths;
   show_polygon_area_layer;
   smooth_polygon;
   snap_point_to_line;
   snap_point_to_polygon;
   zoom_to_line;
   zoom_to_point;
   zoom_to_polygon].

End Heads.

(** ** The edit-transaction wrapper *)

Module EditSession.
Import Qgis.

Section Wrapper.

Context {Geom : Type}.

  (** Modelled from the spec: [handle_edit_mode] of the action base class,
      which every mutating strategy calls and the sources do not define. An
      editable layer is left as it is and reported as [(True, False)];
      otherwise an edit session is started, [(False, True)] on success; on
      failure the error is reported and the result is [(None, None)]. *)
Definition handle_edit_mode (p : Provider) (operation_name : string)
    : Py.M (World Geom) (option (bool * bool)) :=
    l <- get_layer ;;
    if isEditable l then
      emit (HandleEditMode (Some (true, false))) ;; Py.ret (Some (true, false))
    else if start_editing p then
      set_layer {| stored := stored l; session := Some (stored l) |} ;;
      emit (HandleEditMode (Some (false, true))) ;; Py.ret (Some (false, true))
    else
      show_error "Error" ("Could not enter edit mode for " ++ operation_name) ;;
      emit (HandleEditMode None) ;; Py.ret None.

  (** Modelled from the spec: [commit_changes] attempts to persist the
      pending edits; on failure it reports, answers false and does not roll
      back. *)
Definition commit_changes (p : Provider) (operation_name : string)
    : Py.M (World Geom) bool :=
    l <- get_layer ;;
    match session l with
    | Some buffer =>
        if commit p then
          set_layer {| stored := buffer; session := Some buffer |} ;;
          emit (CommitChanges true) ;; Py.ret true
        else
          show_error "Error" ("Failed to commit changes for " ++ operation_name) ;;
          emit (CommitChanges false) ;; Py.ret false
    | None =>
        show_error "Error" ("Failed to commit changes for " ++ operation_name) ;;
        emit (CommitChanges false) ;; Py.ret false
    end.

  (** Modelled from the spec: [rollback_changes] discards the pending edits
      unconditionally; it is safe when nothing is pending. *)
Definition rollback_changes : Py.M (World Geom) unit :=
    l <- get_layer ;;
    set_layer {| stored := stored l;
                 session := (fun _ => stored l) <$> session l |} ;;
    emit RollbackChanges.

  (** Modelled from the spec: [exit_edit_mode] ends the edit session when the
      wrapper started it, and does nothing otherwise. *)
Definition exit_edit_mode (edit_mode_entered : bool)
    : Py.M (World Geom) unit :=
    (if edit_mode_entered then
       l <- get_layer ;; set_layer {| stored := stored l; session := None |}
     else Py.ret tt) ;;
    emit (ExitEditMode edit_mode_entered).

End Wrapper.

End EditSession.

(** ** [RotatePolygonAction.execute] *)

Module RotatePolygon.
Import Qgis Settings.

Section Strategy.

Context {Geom : Type}.
Variable parse_float : string -> option Q.
Variable parse_int : string -> option Z.
  (** [geometry.isEmpty()]. *)
Variable isEmpty : Geom -> bool.
  (** The copy of the geometry rotated by an angle about its centroid
      ([centroid().asPoint()], [QgsGeometry(geometry)], [rotate]); any of
      the three calls may raise. *)
Variable rotate : Geom -> Q -> PyExn + Geom.

  (** What one invocation meets: the stored settings, the features under the
      click (all of the layer held by the world), the user's answers, and
      the provider's. *)
Record Env : Type := {
    store : gmap string Value;
    detected_features : list (Feature Geom);
    (** [RotatePolygonDialog]: the angle, [None] when not accepted. *)
    dialog : option Q;
    (** The answer to [confirm_action]. *)
    confirmed : bool;
    provider : Provider;
    (** The text built for the success message. *)
    success_message : string
  }.

Definition flag (env : Env) (name : string) : bool :=
    py_bool (Heads.setting Heads.rotate_polygon (store env) name).

Definition execute (env : Env) : Py.M (World Geom) unit :=
    (* settings, then: if not detected_features *)
    Heads.execute_head parse_float parse_int
      Heads.rotate_polygon (store env) (detected_features env) ;;
    let confirm_before_rotate := flag env "confirm_before_rotate" in
    let show_success := flag env "show_success_message" in
    let auto_commit := flag env "auto_commit_changes" in
    let handle_edit_mode := flag env "handle_edit_mode_automatically" in
    let rollback_on_error := flag env "rollback_on_error" in
    match detected_features env with
    | [] => Py.return_
    | feature :: _ =>
        match geometry feature with
        | None => show_error "Error" "Feature has no valid geometry" ;; Py.return_
        | Some geometry =>
            Py.when (isEmpty geometry)
              (show_error "Error" "Feature has no valid geometry" ;; Py.return_) ;;
            Py.when (negb (is_polygon (geometry_kind feature)))
              (show_error "Error" "This action only works with polygon features" ;;
               Py.return_) ;;
            match dialog env with
            | None => Py.return_ (* User cancelled *)
            | Some rotation_angle =>
                Py.when confirm_before_rotate
                  (ok <- confirm_action "Rotate Polygon" (confirmed env) ;;
                   Py.when (negb ok) Py.return_) ;;
                (* Handle edit mode *)
                edit_mode_entered <-
                  (if handle_edit_mode then
                     edit_result <-
                       EditSession.handle_edit_mode (provider env)
                         "polygon rotation" ;;
                     match edit_result with
                     | None => Py.return_ (* Error occurred *)
                     | Some (_, edit_mode_entered) => Py.ret edit_mode_entered
                     end
                   else Py.ret false) ;;
                Py.try_except_finally
                  (rotated_geometry <- Py.lift (rotate geometry rotation_angle) ;;
                   updated <-
                     updateFeature (provider env) (fid feature) rotated_geometry ;;
                   Py.when (negb updated)
                     (show_error "Error" "Failed to update polygon geometry" ;;
                      Py.return_) ;;
                   Py.when (auto_commit && handle_edit_mode)
                     (committed <-
                        EditSession.commit_changes (provider env)
                          "polygon rotation" ;;
                      Py.when (negb committed) Py.return_) ;;
                   Py.when show_success
                     (show_info "Success" (success_message env)))
                  (fun e =>
                     show_error "Error"
                       ("Failed to rotate polygon: " ++ exn_text e) ;;
                     Py.when (rollback_on_error && handle_edit_mode)
                       EditSession.rollback_changes)
                  (Py.when handle_edit_mode
                     (EditSession.exit_edit_mode edit_mode_entered))
            end
        end
    end.

End Strategy.

End RotatePolygon.

(** ** [SmoothPolygonAction.execute] *)

Module SmoothPolygon.
Import Qgis Settings.

(** The three buttons of [QMessageBox.question]. *)
Inductive Answer : Type :=
  | Yes
  | No
  | Cancel.

Section Strategy.

Context {Geom : Type}.
Variable parse_float : string -> option Q.
Variable parse_int : string -> option Z.
Variable repr : Value -> string.
Variable isEmpty : Geom -> bool.
Variable qgs_smooth : Geom -> Z -> Q -> PyExn + Geom.

Record Env : Type := {
    store : gmap string Value;
    detected_features : list (Feature Geom);
    (** [SmoothPolygonDialog]: iterations, offset and the copy box, [None]
        when not accepted. *)
    unified_dialog : option (Z * Q * bool);
    (** [QInputDialog.getInt] and [getDouble]: [None] when not confirmed. *)
    input_iterations : option Z;
    input_offset : option Q;
    (** The answer to "Create Copy?". *)
    copy_question : Answer;
    (** The answer to [confirm_action]. *)
    confirmed : bool;
    provider : Provider;
    (** The text built for the success message. *)
    success_message : string
  }.

Definition flag (env : Env) (name : string) : bool :=
    py_bool (Heads.setting Heads.smooth_polygon (store env) name).

Definition text (env : Env) (name : string) : string :=
    py_str repr (Heads.setting Heads.smooth_polygon (store env) name).

  (** [self.smooth_geometry(geometry, method, iterations, offset)] on the
      feature's geometry object; the value of the object it returns. *)
Definition smoothed
      (geometry : Geom) (method : string) (iterations : Z) (offset : Q)
    : PyExn + Geom :=
    match Smooth.smooth_geometry qgs_smooth (fun g _ _ => g) 1%positive method
            iterations offset
            {[ 1%positive := geometry ]} with
    | (Returns r, h) =>
        match h !! r with
        | Some g => inr g
        | None => inl (Exception "")
        end
    | (Raises e, _) => inl e
    | (OutOfFragment, _) => inl (Exception "")
    end.

  (** The inputs gathered before the edit: iterations, offset and whether a
      copy is made; [return] on any cancellation. *)
Definition ask_user (env : Env) : Py.M (World Geom) (Z * Q * bool) :=
    let ask_create_copy := flag env "ask_create_copy" in
    let default_copy_choice := text env "default_copy_choice" in
    if flag env "use_unified_dialog" then
      let show_copy_option := ask_create_copy in
      match unified_dialog env with
      | None => Py.return_ (* User cancelled *)
      | Some (iterations, offset, copy_box) =>
          Py.ret (iterations, offset,
                  if show_copy_option then copy_box
                  else String.eqb default_copy_choice "copy")
      end
    else
      match input_iterations env with
      | None => Py.return_ (* User cancelled *)
      | Some iterations =>
          match input_offset env with
          | None => Py.return_ (* User cancelled *)
          | Some offset =>
              if ask_create_copy then
                if String.eqb default_copy_choice "ask" then
                  match copy_question env with
                  | Cancel => Py.return_
                  | Yes => Py.ret (iterations, offset, true)
                  | No => Py.ret (iterations, offset, false)
                  end
                else
                  Py.ret (iterations, offset,
                          String.eqb default_copy_choice "copy")
              else Py.ret (iterations, offset, false)
          end
      end.

Definition execute (env : Env) : Py.M (World Geom) unit :=
    (* settings, then: if not detected_features *)
    Heads.execute_head parse_float parse_int
      Heads.smooth_polygon (store env) (detected_features env) ;;
    let smoothing_method := text env "smoothing_method" in
    let confirm_before_smooth := flag env "confirm_before_smooth" in
    let show_success := flag env "show_success_message" in
    let auto_commit := flag env "auto_commit_changes" in
    let handle_edit_mode := flag env "handle_edit_mode_automatically" in
    let rollback_on_error := flag env "rollback_on_error" in
    match detected_features env with
    | [] => Py.return_
    | feature :: _ =>
        match geometry feature with
        | None => show_error "Error" "Feature has no valid geometry" ;; Py.return_
        | Some geometry =>
            Py.when (isEmpty geometry)
              (show_error "Error" "Feature has no valid geometry" ;; Py.return_) ;;
            Py.when (negb (is_polygon (geometry_kind feature)))
              (show_error "Error" "This action only works with polygon features" ;;
               Py.return_) ;;
            input <- ask_user env ;;
            let '(iterations, offset, create_copy) := input in
            Py.when confirm_before_smooth
              (ok <- confirm_action "Smooth Polygon" (confirmed env) ;;
               Py.when (negb ok) Py.return_) ;;
            (* Handle edit mode *)
            edit_mode_entered <-
              (if handle_edit_mode then
                 edit_result <-
                   EditSession.handle_edit_mode (provider env)
                     "polygon smoothing" ;;
                 match edit_result with
                 | None => Py.return_ (* Error occurred *)
                 | Some (_, edit_mode_entered) => Py.ret edit_mode_entered
                 end
               else Py.ret false) ;;
            Py.try_except_finally
              (smoothed_geometry <-
                 Py.lift (smoothed geometry smoothing_method iterations offset) ;;
               Py.when (isEmpty smoothed_geometry)
                 (show_error "Error" "Smoothing resulted in invalid geometry" ;;
                  Py.return_) ;;
               (if create_copy then
                  added <- addFeature (provider env) smoothed_geometry ;;
                  match added with
                  | None =>
                      show_error "Error"
                        "Failed to create smoothed copy of feature" ;;
                      Py.return_
                  | Some _ => Py.ret tt
                  end
                else
                  updated <-
                    updateFeature (provider env) (fid feature)
                      smoothed_geometry ;;
                  Py.when (negb updated)
                    (show_error "Error" "Failed to update polygon geometry" ;;
                     Py.return_)) ;;
               Py.when (auto_commit && handle_edit_mode)
                 (committed <-
                    EditSession.commit_changes (provider env)
                      "polygon smoothing" ;;
                  Py.when (negb committed) Py.return_) ;;
               Py.when show_success
                 (show_info "Success" (success_message env)))
              (fun e =>
                 show_error "Error"
                   ("Failed to smooth polygon: " ++ exn_text e) ;;
                 Py.when (rollback_on_error && handle_edit_mode)
                   EditSession.rollback_changes)
              (Py.when handle_edit_mode
                 (EditSession.exit_edit_mode edit_mode_entered))
        end
    end.

End Strategy.

End SmoothPolygon.

(** ** [MovePointAction._move_feature_to_geometry] *)

Module MovePoint.
Import Qgis Settings.

Section Strategy.

Context {Geom : Type}.
Variable repr : Value -> string.
  (** [original_point.distance(new_point)], from [feature.geometry()] and
      the new geometry; the calls raise on a geometry that is no point. *)
Variable moved_distance : Feature Geom -> Geom -> PyExn + Q.
  (** [f"{distance_moved:.2f} map units"]. *)
Variable distance_text : Q -> string.
  (** The message with the coordinate and copy lines appended when the
      settings ask for them. *)
Variable decorate : gmap string Value -> string -> string.

Record Env : Type := {
    (** [self._current_settings], the empty dict when the attribute is
        missing. *)
    current_settings : gmap string Value;
    provider : Provider;
    layer_name : string;
    (** The text of the copy message, which names the new feature's id. *)
    copy_message : string;
    (** Truth value of the new feature object. *)
    new_feature_truthy : bool;
    (** What [str.format] gives for a template outside the modelled
        fragment. *)
    format_elsewhere : PyExn + string
  }.

  (** [settings.get(name, default)] used as a condition. *)
Definition truthy (env : Env) (name : string) (default_value : bool) : bool :=
    py_bool (default (VBool default_value) (current_settings env !! name)).

  (** [settings.get(name, default)] passed to [str.format]. *)
Definition shown (env : Env) (name : string) (default_value : Value)
    : string :=
    py_str repr (default default_value (current_settings env !! name)).

Definition formatted (env : Env) (feature : Feature Geom) (distance : Q)
    : PyExn + string :=
    match
      format_message_template (Num := Empty_set)
        (fun x => match x with end)
        (shown env "success_message_template"
           (VStr "Point feature ID {feature_id} moved successfully"))
        {[ "feature_id" := PyStr (shown env "feature_id" (VInt (fid feature)));
           "layer_name" :=
             PyStr (shown env "layer_name" (VStr (layer_name env)));
           "distance_moved" := PyStr (distance_text distance) ]}
    with
    | Returns s => inr s
    | Raises e => inl e
    | OutOfFragment => format_elsewhere env
    end.

Definition _move_feature_to_geometry
      (env : Env) (feature : Feature Geom) (new_geometry : Geom)
    : Py.M (World Geom) unit :=
    let handle_edit_mode := truthy env "handle_edit_mode_automatically" true in
    (* Handle edit mode if enabled *)
    edit_mode_entered <-
      (if handle_edit_mode then
         edit_result <-
           EditSession.handle_edit_mode (provider env) "point move" ;;
         match edit_result with
         | None => Py.return_ (* Error occurred *)
         | Some (_, edit_mode_entered) => Py.ret edit_mode_entered
         end
       else Py.ret false) ;;
    Py.try_except_finally
      (distance_moved <- Py.lift (moved_distance feature new_geometry) ;;
       let create_copy := truthy env "create_copy" false in
       operation_name <-
         (if create_copy then
            added <- addFeature (provider env) new_geometry ;;
            match added with
            | None =>
                show_error "Error" "Failed to create copy of point" ;;
                Py.return_
            | Some _ => Py.ret "point copy"
            end
          else
            updated <- updateFeature (provider env) (fid feature) new_geometry ;;
            if updated then Py.ret "point move"
            else
              show_error "Error" "Failed to update point geometry" ;;
              Py.return_) ;;
       Py.when (truthy env "auto_commit_changes" true && handle_edit_mode)
         (committed <-
            EditSession.commit_changes (provider env) operation_name ;;
          Py.when (negb committed) Py.return_) ;;
       Py.when (truthy env "show_success_message" true)
         (success_message <-
            (if create_copy && new_feature_truthy env
             then Py.ret (copy_message env)
             else Py.lift (formatted env feature distance_moved)) ;;
          show_info "Success" (decorate (current_settings env) success_message)))
      (fun e =>
         show_error "Error" ("Failed to move point feature: " ++ exn_text e) ;;
         Py.when (truthy env "rollback_on_error" true && handle_edit_mode)
           EditSession.rollback_changes)
      (Py.when handle_edit_mode (EditSession.exit_edit_mode edit_mode_entered)).

End Strategy.

End MovePoint.

(** ** The mutating strategies side by side *)

Module Mutating.
Import Qgis Settings.

(** The Python and QGIS functions that the strategies call. *)
Record Platform (Geom : Type) : Type := {
  parse_float : string -> option Q;
  parse_int : string -> option Z;
  repr : Value -> string;
  isEmpty : Geom -> bool;
  rotate : Geom -> Q -> PyExn + Geom;
  qgs_smooth : Geom -> Z -> Q -> PyExn + Geom;
  moved_distance : Feature Geom -> Geom -> PyExn + Q;
  distance_text : Q -> string;
  decorate : gmap string Value -> string -> string
}.
Arguments parse_float {Geom} _.
Arguments parse_int {Geom} _.
Arguments repr {Geom} _.
Arguments isEmpty {Geom} _.
Arguments rotate {Geom} _.
Arguments qgs_smooth {Geom} _.
Arguments moved_distance {Geom} _.
Arguments distance_text {Geom} _.
Arguments decorate {Geom} _.

Inductive Strategy : Type :=
  | rotate_polygon
  | smooth_polygon
  | move_point_with_click.

(** What each strategy is invoked with. *)
Definition Input (Geom : Type) (s : Strategy) : Type :=
  match s with
  | rotate_polygon => RotatePolygon.Env (Geom := Geom)
  | smooth_polygon => SmoothPolygon.Env (Geom := Geom)
  | move_point_with_click =>
      (MovePoint.Env * Feature Geom * Geom)%type
  end.

Definition run {Geom : Type} (P : Platform Geom) (s : Strategy)
  : Input Geom s -> Py.M (World Geom) unit :=
  match s with
  | rotate_polygon =>
      RotatePolygon.execute (parse_float P) (parse_int P) (isEmpty P) (rotate P)
  | smooth_polygon =>
      SmoothPolygon.execute (parse_float P) (parse_int P) (repr P) (isEmpty P)
        (qgs_smooth P)
  | move_point_with_click =>
      fun '(env, feature, new_geometry) =>
        MovePoint._move_feature_to_geometry (repr P) (moved_distance P)
          (distance_text P) (decorate P) env feature new_geometry
  end.

(** One invocation on a layer, from an empty record of calls. *)
Definition invoke {Geom : Type} (P : Platform Geom) (s : Strategy)
    (i : Input Geom s) (l : Layer Geom) : Py.Flow unit * World Geom :=
  run P s i {| layer := l; log := [] |}.

End Mutating.

(** ** Concrete invocations *)

Module Scenario.
Import Qgis Settings.

(** A platform over geometries written as text. *)
Definition platform : Mutating.Platform string := {|
  Mutating.parse_float := fun _ => None;
  Mutating.parse_int := fun _ => None;
  Mutating.repr := fun _ => "7";
  Mutating.isEmpty := fun g => String.eqb g "";
  Mutating.rotate := fun g _ => inr ("rotated " ++ g);
  Mutating.qgs_smooth := fun g _ _ => inr ("smoothed " ++ g);
  Mutating.moved_distance := fun _ _ => inr 1%Q;
  Mutating.distance_text := fun _ => "1.00 map units";
  Mutating.decorate := fun _ s => s
|}.

(** A layer with one polygon, not in edit mode. *)
Definition parcels : Layer string :=
  {| stored := {[ 7%Z := "square" ]}; session := None |}.

(** The same layer while the user is editing it, one change pending. *)
Definition parcels_in_edit : Layer string :=
  {| stored := {[ 7%Z := "square" ]};
     session := Some {[ 7%Z := "square"; 8%Z := "triangle" ]} |}.

Definition square : Feature string :=
  {| fid := 7; geometry := Some "square"; geometry_kind := PolygonGeometry |}.

(** [rotate_polygon] with default settings on the polygon under the click,
    the dialog accepted with 90 degrees. *)
Definition rotate_square (p : Provider) : RotatePolygon.Env := {|
  RotatePolygon.store := ∅;
  RotatePolygon.detected_features := [square];
  RotatePolygon.dialog := Some (90 # 1);
  RotatePolygon.confirmed := true;
  RotatePolygon.provider := p;
  RotatePolygon.success_message := "Polygon feature ID 7 rotated successfully"
|}.

(** The provider accepts the update and refuses the commit. *)
Definition commit_refused : Provider :=
  {| start_editing := true; update_feature := Accept;
     add_feature := Accept; commit := false |}.

(** The provider rejects the update. *)
Definition update_rejected : Provider :=
  {| start_editing := true; update_feature := Reject;
     add_feature := Reject; commit := true |}.

(** The store in which [zoom_to_polygon] has its error messages off. *)
Definition errors_off : gmap string Value :=
  {[ key "zoom_to_polygon" "show_error_messages" := VBool false ]}.

End Scenario.

(** ** The searches over layers of the snapping actions *)

Module SnapSearch.
Import Snap.

Section Lines.

Context {Point : Type}.
Variables (point : Point) (max_distance : Q).

(** The features of all layers, each with its layer, in the order in which
    the two loops of [_find_closest_line] visit them. *)
Definition visited (line_layers : list (LineLayer (Point := Point)))
  : list (LineLayer * LineFeature) :=
  List.concat
    (map (fun layer => map (fun f => (layer, f)) (layer_features layer))
         line_layers).

(** A feature that the search passes over: no geometry, or farther than
    [max_distance]. *)
Definition out_of_reach (f : LineFeature (Point := Point)) : Prop :=
  match feature_geometry f with
  | None => True
  | Some g => (max_distance < line_distance g point)%Q
  end.

(** A feature that is passed over or is not nearer than [d]. *)
Definition not_nearer (d : Q) (f : LineFeature (Point := Point)) : Prop :=
  match feature_geometry f with
  | None => True
  | Some g => (max_distance < line_distance g point)%Q
              \/ (d <= line_distance g point)%Q
  end.

End Lines.


Section Polygons.

Context {Point : Type}.
(** [QgsPointXY.distance]. *)
Variable distance : Point -> Point -> Q.











End Polygons.

End SnapSearch.

(** ** Reading the record of a run *)

Module Trace.
Import Qgis.

(** The provider accepted a change ([updateFeature] or [addFeature]). *)
Definition accepted_change (ev : Event) : bool :=
  match ev with
  | UpdateFeature _ true | AddFeature true => true
  | _ => false
  end.

(** A call of [updateFeature] or [addFeature]. *)
Definition provider_call (ev : Event) : bool :=
  match ev with
  | UpdateFeature _ _ | AddFeature _ => true
  | _ => false
  end.

(** [handle_edit_mode] answered with a record. *)
Definition edit_mode_handled (ev : Event) : bool :=
  match ev with
  | HandleEditMode (Some _) => true
  | _ => false
  end.

Definition error_shown (ev : Event) : bool :=
  match ev with
  | ShowError _ _ => true
  | _ => false
  end.

Definition refused_commit (ev : Event) : bool :=
  match ev with
  | CommitChanges false => true
  | _ => false
  end.

(** Neither a provider call nor a commit, rollback or exit. *)
Definition harmless (ev : Event) : bool :=
  match ev with
  | ShowError _ _ | ShowInfo _ _ | ConfirmAction _ _ | HandleEditMode _ => true
  | _ => false
  end.

(** What every run of a mutating strategy on a layer [l] satisfies, read
    from the result [r] of the run. *)
Definition sound {Geom : Type} (l : Layer Geom)
    (r : Py.Flow unit * World Geom) : Prop :=
  (HandleEditMode None ∈ log r.2 ->
     layer r.2 = l /\ forallb harmless (log r.2) = true)
  /\ (forall title text, ShowInfo title text ∈ log r.2 ->
        existsb accepted_change (log r.2) = true
        /\ existsb error_shown (log r.2) = false
        /\ existsb refused_commit (log r.2) = false)
  /\ (forall ok, CommitChanges ok ∈ log r.2 ->
        existsb accepted_change (log r.2) = true
        /\ existsb edit_mode_handled (log r.2) = true)
  /\ (RollbackChanges ∈ log r.2 ->
        existsb edit_mode_handled (log r.2) = true
        /\ existsb error_shown (log r.2) = true)
  /\ (List.length (List.filter provider_call (log r.2)) <= 1)%nat
  /\ (isEditable l = false -> isEditable (layer r.2) = false)
  /\ (stored (layer r.2) = stored l \/ CommitChanges true ∈ log r.2).

End Trace.

Module SettingsKeys.

(** No ["/"] in a name. *)
Fixpoint no_slash (s : string) : bool :=
  match s with
  | "" => true
  | String c rest => negb (Ascii.eqb c "/") && no_slash rest
  end.

End SettingsKeys.

(** ** Further invocations *)

Module Runs.
Import Qgis Settings.

(** The provider accepts every call. *)
Definition accepting : Provider :=
  {| start_editing := true; update_feature := Accept;
     add_feature := Accept; commit := true |}.

(** The layer cannot be put in edit mode. *)
Definition read_only : Provider :=
  {| start_editing := false; update_feature := Reject;
     add_feature := Reject; commit := false |}.

(** A platform on which rotating a geometry raises. *)
Definition rotation_raises : Mutating.Platform string := {|
  Mutating.parse_float := fun _ => None;
  Mutating.parse_int := fun _ => None;
  Mutating.repr := fun _ => "7";
  Mutating.isEmpty := fun g => String.eqb g "";
  Mutating.rotate := fun _ _ => inl (Exception "no centroid");
  Mutating.qgs_smooth := fun g _ _ => inr ("smoothed " ++ g);
  Mutating.moved_distance := fun _ _ => inr 1%Q;
  Mutating.distance_text := fun _ => "1.00 map units";
  Mutating.decorate := fun _ s => s
|}.

End Runs.

(** ** [OpenCoordinatesInMapAction] *)

Module OpenCoordinates.
Import Settings.

(** The calls the action makes: notifications and [webbrowser.open]. *)
Inductive Call : Type :=
  | ShowError (title text : string)
  | ShowInfo (title text : string)
  | WebbrowserOpen (url : string).

Definition call (c : Call) : Py.M (list Call) unit :=
  fun w => (Py.Next tt, (w ++ [c])%list).

(** [try: body / except (classes) as e: handler] around a block whose
    bindings are used after it. *)
Definition try_except_value {W A : Type}
    (body : Py.M W A) (caught : PyExn -> bool) (handler : PyExn -> Py.M W A)
  : Py.M W A :=
  fun w =>
    match body w with
    | (Py.Raise e, w1) => if caught e then handler e w1 else (Py.Raise e, w1)
    | r => r
    end.

(** [a <= x <= b] on floats, read as rationals. *)
Definition between (a x b : Q) : bool := Qle_bool a x && Qle_bool x b.

Section Action.

Variable parse_int : string -> option Z.
Variable repr : Value -> string.
  (** [f"{lat}"], [f"{lat:.6f}"] and [f"{zoom}"]. *)
Variable float_text : Q -> string.
Variable fixed6 : Q -> string.
Variable int_text : Z -> string.

Definition _build_map_url (lat lon : Q) (map_service : string) (zoom_level : Z)
    : string :=
    (* Clamp zoom level to valid range *)
    let zoom := Z.max 1 (Z.min 20 zoom_level) in
    if String.eqb map_service "Google Maps" then
      "https://www.google.com/maps?q=" ++ float_text lat ++ ","
        ++ float_text lon ++ "&z=" ++ int_text zoom
    else if String.eqb map_service "OpenStreetMap" then
      "https://www.openstreetmap.org/?mlat=" ++ float_text lat ++ "&mlon="
        ++ float_text lon ++ "&zoom=" ++ int_text zoom
    else if String.eqb map_service "Bing Maps" then
      "https://www.bing.com/maps?cp=" ++ float_text lat ++ "~"
        ++ float_text lon ++ "&lvl=" ++ int_text zoom
    else if String.eqb map_service "Mapbox" then
      "https://www.mapbox.com/maps?lat=" ++ float_text lat ++ "&lon="
        ++ float_text lon ++ "&zoom=" ++ int_text zoom
    else if String.eqb map_service "Yandex Maps" then
      "https://yandex.com/maps/?pt=" ++ float_text lon ++ ","
        ++ float_text lat ++ "&z=" ++ int_text zoom
    else if String.eqb map_service "Apple Maps" then
      "https://maps.apple.com/?ll=" ++ float_text lat ++ ","
        ++ float_text lon ++ "&z=" ++ int_text zoom
    else if String.eqb map_service "Here WeGo" then
      "https://wego.here.com/?map=" ++ float_text lat ++ ","
        ++ float_text lon ++ "," ++ int_text zoom ++ ",normal"
    else if String.eqb map_service "Baidu Maps" then
      "https://map.baidu.com/?newmap=1&ie=utf-8&s=s%26wd%3D" ++ float_text lat
        ++ "%2C" ++ float_text lon
    else
      (* Default to Google Maps *)
      "https://www.google.com/maps?q=" ++ float_text lat ++ ","
        ++ float_text lon ++ "&z=" ++ int_text zoom.

  (** The map canvas: whether its CRS is EPSG:4326 (reading it may raise)
      and the transformation of a point to EPSG:4326, which may raise. *)
Record Canvas : Type := {
    crs_is_wgs84 : PyExn + bool;
    transform : Q -> Q -> PyExn + (Q * Q)
  }.

Record Env : Type := {
    store : gmap string Value;
    (** [context.get('click_point')]: its [x()] and [y()]. *)
    click_point : option (Q * Q);
    canvas : option Canvas;
    (** What [webbrowser.open] does. *)
    browser : PyExn + unit
  }.

Definition read (env : Env) (name : string) (default_value : Value) : Value :=
    get_setting (store env) "open_coordinates_in_map" name default_value.

Definition execute (env : Env) : Py.M (list Call) unit :=
    (* Get settings with proper type conversion *)
    settings <-
      try_except_value
        (let map_service :=
           py_str repr (read env "map_service" (VStr "Google Maps")) in
         zoom_level <-
           Py.lift (py_int parse_int (read env "zoom_level" (VInt 15))) ;;
         let show_coordinates :=
           py_bool (read env "show_coordinates" (VBool true)) in
         let show_success_message :=
           py_bool (read env "show_success_message" (VBool false)) in
         Py.ret (map_service, zoom_level, show_coordinates,
                 show_success_message))
        Heads.caught_by_head
        (fun e =>
           call (ShowError "Error" ("Invalid setting values: " ++ exn_text e)) ;;
           Py.return_) ;;
    let '(map_service, zoom_level, show_coordinates, show_success_message) :=
      settings in
    match click_point env with
    | None => call (ShowError "Error" "No click point available") ;; Py.return_
    | Some (x, y) =>
        match canvas env with
        | None =>
            call (ShowError "Error" "Map canvas not available") ;; Py.return_
        | Some cv =>
            Py.try_except
              (same_crs <- Py.lift (crs_is_wgs84 cv) ;;
               (* Transform to WGS84 if needed *)
               point <-
                 (if negb same_crs then
                    try_except_value
                      (Py.lift (transform cv x y))
                      (fun _ => true)
                      (fun e =>
                         call (ShowError "Error"
                                 ("Failed to transform coordinates to WGS84: "
                                  ++ exn_text e)) ;;
                         Py.return_)
                  else Py.ret (x, y)) ;;
               let '(lon, lat) := point in
               (* Validate coordinates (WGS84 bounds) *)
               Py.when (negb (between (-180) lon 180)
                        || negb (between (-90) lat 90))
                 (call (ShowError "Error"
                          ("Invalid coordinates: Longitude " ++ fixed6 lon
                           ++ ", Latitude " ++ fixed6 lat)) ;;
                  Py.return_) ;;
               let map_url := _build_map_url lat lon map_service zoom_level in
               Py.when show_coordinates
                 (call (ShowInfo "Opening Map"
                          ("Opening coordinates in " ++ map_service
                           ++ ":" ++ String "010" (String "010" "")
                           ++ "Latitude: " ++ fixed6 lat ++ String "010" ""
                           ++ "Longitude: " ++ fixed6 lon ++ String "010" ""
                           ++ "Zoom Level: " ++ int_text zoom_level))) ;;
               (* Open URL in browser *)
               Py.try_except
                 (call (WebbrowserOpen map_url) ;;
                  Py.lift (browser env) ;;
                  Py.when show_success_message
                    (call (ShowInfo "Success"
                             ("Opened " ++ map_service ++ " in your browser."))))
                 (fun _ => true)
                 (fun e =>
                    call (ShowError "Error"
                            ("Failed to open browser: " ++ exn_text e))))
              (fun _ => true)
              (fun e =>
                 call (ShowError "Error"
                         ("Failed to open coordinates in map: " ++ exn_text e)))
        end
    end.

End Action.

(** Whether a call is an error notification. *)
Definition is_error (c : Call) : bool :=
  match c with
  | ShowError _ _ => true
  | _ => false
  end.

Definition is_browser (c : Call) : bool :=
  match c with
  | WebbrowserOpen _ => true
  | _ => false
  end.

End OpenCoordinates.

(** ** [MovePointAction.execute], its dialogs and its map tool *)

Module MovePointSession.
Import Qgis Settings.

(** [QDialog.Rejected] and [QDialog.Accepted], the two values of Qt's
    [QDialog.DialogCode]. *)
Definition Rejected : Z := 0.
Definition Accepted : Z := 1.

(** The three buttons of [CreateCopyDialog]. *)
Inductive CopyButton : Type :=
  | YesCreateCopy
  | NoMoveOriginal
  | CancelCopy.

(** [CreateCopyDialog.exec_()]: the code that the pressed button passes to
    [done]; [reject] is [done(QDialog.Rejected)]. *)
Definition exec_ (pressed : CopyButton) : Z :=
  match pressed with
  | YesCreateCopy => 1 (* Return 1 for copy *)
  | NoMoveOriginal => 0 (* Return 0 for move *)
  | CancelCopy => Rejected
  end.

(** [CreateCopyDialog.get_choice]. *)
Definition get_choice (pressed : CopyButton) : option Z :=
  let result := exec_ pressed in
  if (result =? Rejected)%Z then None else Some result.

(** [MoveWithClickDialog.get_create_copy]: the dialog has the checkbox
    exactly when it was built with [ask_copy]. *)
Definition get_create_copy (ask_copy checkbox_checked : bool) : bool :=
  if ask_copy then checkbox_checked else false.

Section Action.

Context {Geom : Type}.
Variable parse_float : string -> option Q.
Variable parse_int : string -> option Z.
Variable repr : Value -> string.
Variable isEmpty : Geom -> bool.

  (** A detected feature: the feature, the name of its layer and its
      [geometry_type]. *)
Record Detected : Type := {
    feature : Feature Geom;
    layer_name : string;
    geometry_type : string
  }.

Record Env : Type := {
    store : gmap string Value;
    detected_features : list Detected;
    (** Truth value of [context.get('canvas')]. *)
    canvas : bool;
    (** [geometry.asPoint()] written as "(x, y)"; the calls may raise. *)
    point_text : PyExn + string;
    (** [MoveWithClickDialog]: what [exec_()] returns, and the state of the
        checkbox when the dialog closes, given the state it opened with. *)
    unified_exec : Z;
    checkbox : bool -> bool;
    (** The answer to [confirm_action]. *)
    confirmed : bool;
    (** The button pressed in [CreateCopyDialog]. *)
    pressed : CopyButton;
    (** What [str.format] gives for a template outside the modelled
        fragment. *)
    format_elsewhere : PyExn + string;
    (** [MovePointMapTool(...)], whose constructor calls
        [original_geometry.asPoint()], and [canvas.setMapTool]. *)
    tool_created : PyExn + unit
  }.

Definition flag (env : Env) (name : string) : bool :=
    py_bool (Heads.setting Heads.move_point_with_click (store env) name).

Definition text (env : Env) (name : string) : string :=
    py_str repr (Heads.setting Heads.move_point_with_click (store env) name).

  (** [self.format_message_template(confirmation_template, feature_id=...,
      layer_name=..., geometry_type=...)]. *)
Definition confirmation (env : Env) (detected_feature : Detected)
    : PyExn + string :=
    match
      format_message_template (Num := Empty_set)
        (fun x => match x with end)
        (text env "confirmation_message_template")
        {[ "feature_id" :=
             PyStr (py_str repr (VInt (fid (feature detected_feature))));
           "layer_name" := PyStr (layer_name detected_feature);
           "geometry_type" := PyStr (geometry_type detected_feature) ]}
    with
    | Returns s => inr s
    | Raises e => inl e
    | OutOfFragment => format_elsewhere env
    end.

  (** [execute]; the value it ends with is the dict it stores in
      [self._current_settings] and the detected feature it hands to the map
      tool that it creates and activates. *)
Definition execute (env : Env)
    : Py.M (World Geom) (gmap string Value * Detected) :=
    (* settings, then: if not detected_features *)
    Heads.execute_head parse_float parse_int
      Heads.move_point_with_click (store env) (detected_features env) ;;
    let confirm_move := flag env "confirm_move" in
    let show_success := flag env "show_success_message" in
    let success_template := text env "success_message_template" in
    let show_cancellation := flag env "show_cancellation_message" in
    let auto_commit := flag env "auto_commit_changes" in
    let handle_edit_mode := flag env "handle_edit_mode_automatically" in
    let rollback_on_error := flag env "rollback_on_error" in
    let show_coordinate_info := flag env "show_coordinate_info" in
    let ask_create_copy := flag env "ask_create_copy" in
    let default_copy_choice := text env "default_copy_choice" in
    let show_copy_info := flag env "show_copy_info_in_messages" in
    let use_unified_dialog := flag env "use_unified_dialog" in
    match detected_features env with
    | [] => Py.return_
    | detected_feature :: _ =>
        Py.when (negb (canvas env))
          (show_error "Error" "Map canvas not available" ;; Py.return_) ;;
        Py.when
          (match geometry (feature detected_feature) with
           | None => true
           | Some g => isEmpty g
           end)
          (show_error "Error" "Feature has no valid geometry" ;; Py.return_) ;;
        (* Get point coordinates if requested *)
        let point_coords :=
          if show_coordinate_info then
            match point_text env with
            | inr s => Some s
            | inl _ => None
            end
          else None in
        (* Prepare confirmation message if needed *)
        confirmation_message <-
          (if confirm_move then
             message <- Py.lift (confirmation env detected_feature) ;;
             Py.ret
               (match point_coords with
                | Some s =>
                    if show_coordinate_info && negb (String.eqb s "")
                    then message ++ String "010" (String "010" "")
                           ++ "Current coordinates: " ++ s
                    else message
                | None => message
                end)
           else Py.ret "") ;;
        (* Determine copy options *)
        let '(default_copy, show_copy_option) :=
          if ask_create_copy then
            if String.eqb default_copy_choice "copy" then (true, true)
            else if String.eqb default_copy_choice "move" then (false, true)
            else (false, true) (* 'ask' *)
          else (false, false) in
        (* Use unified dialog or separate popups *)
        create_copy <-
          (if use_unified_dialog && (confirm_move || show_copy_option) then
             Py.when (negb (unified_exec env =? Accepted)%Z)
               Py.return_ (* User cancelled *) ;;
             Py.ret
               (if show_copy_option
                then get_create_copy show_copy_option
                       (checkbox env default_copy)
                else String.eqb default_copy_choice "copy")
           else
             Py.when confirm_move
               (ok <- confirm_action "Move Point" (confirmed env) ;;
                Py.when (negb ok) Py.return_) ;;
             if ask_create_copy then
               if String.eqb default_copy_choice "ask" then
                 match get_choice (pressed env) with
                 | None => Py.return_ (* User cancelled *)
                 | Some copy_choice => Py.ret (copy_choice =? 1)%Z
                 end
               else if String.eqb default_copy_choice "copy" then Py.ret true
               else Py.ret false
             else Py.ret (String.eqb default_copy_choice "copy")) ;;
        (* Store settings for the map tool *)
        let _current_settings : gmap string Value :=
          {[ "show_success_message" := VBool show_success;
             "success_message_template" := VStr success_template;
             "show_cancellation_message" := VBool show_cancellation;
             "auto_commit_changes" := VBool auto_commit;
             "handle_edit_mode_automatically" := VBool handle_edit_mode;
             "rollback_on_error" := VBool rollback_on_error;
             "show_coordinate_info" := VBool show_coordinate_info;
             "show_copy_info" := VBool show_copy_info;
             "create_copy" := VBool create_copy;
             "point_coords" :=
               match point_coords with
               | Some s => VStr s
               | None => VNone
               end;
             "feature_id" := VInt (fid (feature detected_feature));
             "layer_name" := VStr (layer_name detected_feature);
             "geometry_type" := VStr (geometry_type detected_feature) ]} in
        (* Create and activate the move tool *)
        Py.lift (tool_created env) ;;
        Py.ret (_current_settings, detected_feature)
    end.

End Action.

Section Tool.

Context {Geom : Type}.
Variable repr : Value -> string.
Variable moved_distance : Feature Geom -> Geom -> PyExn + Q.
Variable distance_text : Q -> string.
Variable decorate : gmap string Value -> string -> string.

  (** What the map tool meets once it is active: [self.settings], the
      provider, and the texts built for the messages. *)
Record ToolEnv : Type := {
    tool_settings : gmap string Value;
    provider : Provider;
    copy_message : string;
    new_feature_truthy : bool;
    tool_format_elsewhere : PyExn + string
  }.

  (** [MovePointMapTool._cancel_move]. *)
Definition _cancel_move (tool : ToolEnv) : Py.M (World Geom) unit :=
    Py.when
      (py_bool (default (VBool true)
                  (tool_settings tool !! "show_cancellation_message")))
      (show_info "Move Cancelled" "Point move operation was cancelled.").

  (** [MovePointMapTool.canvasPressEvent] for an event whose [button()] is
      [button], the click mapped to [new_geometry]; [_current_settings] is
      the dict of the action the tool belongs to. *)
Definition canvasPressEvent
      (tool : ToolEnv) (_current_settings : gmap string Value)
      (detected_feature : Detected (Geom := Geom))
      (button : Z) (new_geometry : Geom) : Py.M (World Geom) unit :=
    if (button =? 1)%Z then (* Left click to place *)
      MovePoint._move_feature_to_geometry repr moved_distance distance_text
        decorate
        {| MovePoint.current_settings := _current_settings;
           MovePoint.provider := provider tool;
           MovePoint.layer_name := layer_name detected_feature;
           MovePoint.copy_message := copy_message tool;
           MovePoint.new_feature_truthy := new_feature_truthy tool;
           MovePoint.format_elsewhere := tool_format_elsewhere tool |}
        (feature detected_feature) new_geometry
    else if (button =? 2)%Z then (* Right click to cancel *)
      _cancel_move tool
    else Py.ret tt.

End Tool.

(** One use of the action: [execute], then one press on the canvas handled
    by the tool that [execute] activated. Nothing follows an [execute] that
    returned early or raised. *)
Definition place {Geom : Type} (P : Mutating.Platform Geom)
    (env : Env (Geom := Geom)) (tool : ToolEnv)
    (button : Z) (new_geometry : Geom) : Py.M (World Geom) unit :=
  activated <-
    execute (Mutating.parse_float P) (Mutating.parse_int P) (Mutating.repr P)
      (Mutating.isEmpty P) env ;;
  let '(_current_settings, detected_feature) := activated in
  canvasPressEvent (Mutating.repr P) (Mutating.moved_distance P)
    (Mutating.distance_text P) (Mutating.decorate P)
    tool _current_settings detected_feature button new_geometry.

(** A call that opens, commits, rolls back or closes an edit session. *)
Definition session_call (ev : Event) : bool :=
  match ev with
  | HandleEditMode _ | CommitChanges _ | RollbackChanges | ExitEditMode _ => true
  | _ => false
  end.

End MovePointSession.

(** ** Edit sessions of the mutating strategies *)

Module RunTactics.

(** Unfold the statements of a run. *)
Ltac run_step :=
  cbv beta iota zeta delta
    [Py.bind Py.ret Py.when Py.return_ Py.raise Py.lift Py.try_except
     Py.try_except_finally Qgis.emit Qgis.set_layer Qgis.get_layer
     Qgis.show_error Qgis.show_info Qgis.confirm_action
     Qgis.updateFeature Qgis.addFeature
     EditSession.handle_edit_mode EditSession.commit_changes
     EditSession.rollback_changes EditSession.exit_edit_mode
     Qgis.layer Qgis.log Qgis.session Qgis.stored Qgis.start_editing
     Qgis.update_feature Qgis.add_feature Qgis.commit
     Qgis.geometry Qgis.fid Qgis.geometry_kind Qgis.isEditable
     fst snd app negb andb orb Heads.caught_by_head
     fmap option_fmap option_map].

(** Follow every path of a run: split on the innermost undecided test. *)
Ltac split_run :=
  repeat (run_step;
          match goal with
          | |- context [match ?x with _ => _ end] =>
              lazymatch x with
              | context [match _ with _ => _ end] => fail
              | _ => destruct x eqn:?
              end
          end).

(** Find the event that a membership hypothesis speaks of. *)
Ltac pick_event H :=
  repeat (apply elem_of_cons in H as [H | H];
          [try discriminate H; try (simplify_eq; reflexivity) |]);
  try (by apply elem_of_nil in H).

End RunTactics.

(** C5: in each of the three strategies, on every path on which
    [handle_edit_mode] answered with a record, whether the body then
    succeeded, returned early or raised, the last call made is
    [exit_edit_mode] with the flag of that record. *)
Theorem exit_edit_mode_reached
    (Geom : Type) (P : Mutating.Platform Geom) (s : Mutating.Strategy)
    (i : Mutating.Input Geom s) (l : Qgis.Layer Geom) (r : bool * bool) :
  Qgis.HandleEditMode (Some r) ∈ Qgis.log (Mutating.invoke P s i l).2 ->
  last (Qgis.log (Mutating.invoke P s i l).2) = Some (Qgis.ExitEditMode r.2).
Proof.
  unfold Mutating.invoke, Mutating.run.
  destruct s; [| | destruct i as [[env feature] new_geometry]];
    unfold RotatePolygon.execute, SmoothPolygon.execute,
      SmoothPolygon.ask_user, MovePoint._move_feature_to_geometry,
      Heads.execute_head;
    RunTactics.split_run;
    RunTactics.run_step; intros H; RunTactics.pick_event H.
Qed.

Lemma exit_edit_mode_reached_witness :
  Qgis.HandleEditMode (Some (false, true))
    ∈ Qgis.log (Mutating.invoke Scenario.platform Mutating.rotate_polygon
                  (Scenario.rotate_square Scenario.commit_refused)
                  Scenario.parcels).2
  /\ last (Qgis.log (Mutating.invoke Scenario.platform Mutating.rotate_polygon
                       (Scenario.rotate_square Scenario.commit_refused)
                       Scenario.parcels).2)
     = Some (Qgis.ExitEditMode true).
Proof.
  assert (Qgis.HandleEditMode (Some (false, true))
    ∈ Qgis.log (Mutating.invoke Scenario.platform Mutating.rotate_polygon
                  (Scenario.rotate_square Scenario.commit_refused)
                  Scenario.parcels).2) as H.
  { vm_compute. apply elem_of_cons. by left. }
  split; [exact H |].
  exact (exit_edit_mode_reached string Scenario.platform Mutating.rotate_polygon
           (Scenario.rotate_square Scenario.commit_refused) Scenario.parcels
           (false, true) H).
Defined.

(** C6: a layer that is editable before one of the strategies runs is
    editable after it, however the run ended; no [exit_edit_mode] call of the
    run carries the flag that closes a session; [exit_edit_mode] with a false
    flag leaves the layer as it is, and a second [exit_edit_mode] with the
    same flag changes nothing more. *)
Theorem editable_layer_stays_editable
    (Geom : Type) (P : Mutating.Platform Geom) (s : Mutating.Strategy)
    (i : Mutating.Input Geom s) (l : Qgis.Layer Geom)
    (w : Qgis.World Geom) (b : bool) :
  Qgis.isEditable l = true ->
  Qgis.isEditable (Qgis.layer (Mutating.invoke P s i l).2) = true
  /\ (Qgis.ExitEditMode true ∉ Qgis.log (Mutating.invoke P s i l).2)
  /\ Qgis.layer (EditSession.exit_edit_mode false w).2 = Qgis.layer w
  /\ Qgis.layer
       (EditSession.exit_edit_mode b (EditSession.exit_edit_mode b w).2).2
     = Qgis.layer (EditSession.exit_edit_mode b w).2.
Proof.
  intros Hl. destruct l as [stored0 [buffer|]]; [clear Hl | discriminate Hl].
  split; [| split; [| split; [done | by destruct b]]].
  - unfold Mutating.invoke, Mutating.run.
    destruct s; [| | destruct i as [[env feature] new_geometry]];
      unfold RotatePolygon.execute, SmoothPolygon.execute,
        SmoothPolygon.ask_user, MovePoint._move_feature_to_geometry,
        Heads.execute_head;
      RunTactics.split_run; RunTactics.run_step; reflexivity.
  - unfold Mutating.invoke, Mutating.run.
    destruct s; [| | destruct i as [[env feature] new_geometry]];
      unfold RotatePolygon.execute, SmoothPolygon.execute,
        SmoothPolygon.ask_user, MovePoint._move_feature_to_geometry,
        Heads.execute_head;
      RunTactics.split_run; RunTactics.run_step; intros H;
      RunTactics.pick_event H.
Qed.

Lemma editable_layer_stays_editable_witness :
  Qgis.isEditable Scenario.parcels_in_edit = true
  /\ Qgis.isEditable
       (Qgis.layer
          (Mutating.invoke Scenario.platform Mutating.rotate_polygon
             (Scenario.rotate_square Scenario.commit_refused)
             Scenario.parcels_in_edit).2) = true.
Proof.
  split; [reflexivity |].
  apply (editable_layer_stays_editable string Scenario.platform
           Mutating.rotate_polygon
           (Scenario.rotate_square Scenario.commit_refused)
           Scenario.parcels_in_edit
           {| Qgis.layer := Scenario.parcels; Qgis.log := [] |} true).
  reflexivity.
Defined.

(** C1 on [rotate_polygon], layer not editable, update accepted, commit
    refused: the strategy returns right after the failed commit; the calls
    made are [handle_edit_mode], [updateFeature], the commit with its report,
    and [exit_edit_mode]; [rollback_changes] is not among them. The layer
    ends not editable with its data source unchanged. *)
Theorem rotate_polygon_commit_failure_skips_rollback :
  let run :=
    Mutating.invoke Scenario.platform Mutating.rotate_polygon
      (Scenario.rotate_square Scenario.commit_refused) Scenario.parcels in
  run.1 = Py.Return
  /\ Qgis.log run.2 =
       [Qgis.HandleEditMode (Some (false, true));
        Qgis.UpdateFeature 7 true;
        Qgis.ShowError "Error" "Failed to commit changes for polygon rotation";
        Qgis.CommitChanges false;
        Qgis.ExitEditMode true]
  /\ (Qgis.RollbackChanges ∉ Qgis.log run.2)
  /\ Qgis.layer run.2 = Scenario.parcels.
Proof.
  repeat split; try (by vm_compute).
  vm_compute. intros H. RunTactics.pick_event H.
Qed.

(** C2 on [rotate_polygon], layer not editable, update rejected by the
    provider: the strategy reports "Failed to update polygon geometry" and
    returns; [rollback_changes] is not called; [exit_edit_mode] ends the
    session and the layer is as it was. *)
Theorem rotate_polygon_rejected_update_skips_rollback :
  let run :=
    Mutating.invoke Scenario.platform Mutating.rotate_polygon
      (Scenario.rotate_square Scenario.update_rejected) Scenario.parcels in
  run.1 = Py.Return
  /\ Qgis.log run.2 =
       [Qgis.HandleEditMode (Some (false, true));
        Qgis.UpdateFeature 7 false;
        Qgis.ShowError "Error" "Failed to update polygon geometry";
        Qgis.ExitEditMode true]
  /\ (Qgis.RollbackChanges ∉ Qgis.log run.2)
  /\ Qgis.layer run.2 = Scenario.parcels.
Proof.
  repeat split; try (by vm_compute).
  vm_compute. intros H. RunTactics.pick_event H.
Qed.

(** ** Capability declarations *)

(** C3 fails on one declaration: [open_coordinates_in_map] has scope
    [universal] and click types [{universal}], but its geometry types are the
    six concrete categories and [canvas], not [{universal}]. The thirty other
    declarations, the four other universal ones among them, satisfy the
    invariant. *)
Theorem open_coordinates_in_map_breaks_scope_invariant :
  Capability.scope Capability.open_coordinates_in_map = "universal"
  /\ Capability.only_universal
       (Capability.supported_click_types Capability.open_coordinates_in_map)
     = true
  /\ Capability.only_universal
       (Capability.supported_geometry_types Capability.open_coordinates_in_map)
     = false
  /\ Capability.scope_type_invariant Capability.open_coordinates_in_map = false
  /\ filter (fun d => negb (Capability.scope_type_invariant d))
            Capability.discovered_actions
     = [Capability.open_coordinates_in_map].
Proof. repeat split; by vm_compute. Qed.

(** C4 fails on the same declaration: [open_coordinates_in_map] declares the
    geometry tag [canvas], which is not a word of the vocabulary; it is the
    only declaration with an unknown tag. *)
Theorem open_coordinates_in_map_declares_unknown_tag :
  existsb (String.eqb "canvas")
    (Capability.supported_geometry_types Capability.open_coordinates_in_map)
  = true
  /\ Capability.known_tag "canvas" = false
  /\ Capability.tags_known Capability.open_coordinates_in_map = false
  /\ filter (fun d => negb (Capability.tags_known d))
            Capability.discovered_actions
     = [Capability.open_coordinates_in_map].
Proof. repeat split; by vm_compute. Qed.

(** ** Empty [detected_features] *)

(** C7, as stated, fails: [zoom_to_polygon], a feature-scope action, invoked
    with no detected feature while its [show_error_messages] setting is
    false, returns without reporting anything. *)
Lemma zoom_to_polygon_silent_without_features :
  Heads.execute_head (Geom := string) (Detected := Qgis.Feature string)
    (fun _ => None) (fun _ => None)
    Heads.zoom_to_polygon Scenario.errors_off []
    {| Qgis.layer := Scenario.parcels; Qgis.log := [] |}
  = (Py.Return, {| Qgis.layer := Scenario.parcels; Qgis.log := [] |}).
Proof. by vm_compute. Qed.

(** C7 (amended): every feature-scope action invoked with an empty
    [detected_features], its settings converting without error, returns at
    the guard: the layer is untouched and the only call made, if any, is
    [show_error] with "No point/line/polygon features found at this
    location". The message is shown by every action but [zoom_to_polygon],
    which shows it when its [show_error_messages] setting is true. *)
Theorem empty_detected_features_stops
    (Geom : Type) (parse_float : string -> option Q)
    (parse_int : string -> option Z)
    (h : Heads.Head) (store : gmap string Settings.Value)
    (l : Qgis.Layer Geom) :
  h ∈ Heads.feature_scope_heads ->
  Settings.read_all parse_float parse_int store
    (Heads.head_id h) (Heads.head_reads h) = inr tt ->
  let run :=
    Heads.execute_head (Detected := Qgis.Feature Geom) parse_float parse_int
      h store [] {| Qgis.layer := l; Qgis.log := [] |} in
  run.1 = Py.Return
  /\ Qgis.layer run.2 = l
  /\ Qgis.log run.2 =
       (if Heads.show_errors h store
        then [Qgis.ShowError "Error" (Heads.head_message h)] else [])
  /\ (Heads.show_errors h store = true \/ h = Heads.zoom_to_polygon)
  /\ Heads.head_message h
       ∈ ["No point features found at this location";
          "No line features found at this location";
          "No polygon features found at this location"].
Proof.
  intros Hin Hread run. subst run. unfold Heads.execute_head.
  rewrite Hread. clear Hread.
  unfold Heads.feature_scope_heads in Hin.
  repeat (apply elem_of_cons in Hin as [-> | Hin]);
    try (by apply elem_of_nil in Hin).
  all: cbv beta iota zeta delta
         [Py.bind Py.ret Py.when Py.return_ Py.raise Py.lift Py.try_except
          Qgis.emit Qgis.show_error Qgis.layer Qgis.log fst snd app].
  all: split; [by destruct (Heads.show_errors _ store) |].
  all: split; [by destruct (Heads.show_errors _ store) |].
  all: split; [by destruct (Heads.show_errors _ store) |].
  all: split; [first [left; reflexivity | right; reflexivity] |].
  all: repeat (apply elem_of_cons; first [left; reflexivity | right]).
Qed.

Lemma empty_detected_features_stops_witness :
  Heads.rotate_polygon ∈ Heads.feature_scope_heads
  /\ Settings.read_all (fun _ => None) (fun _ => None) ∅
       (Heads.head_id Heads.rotate_polygon)
       (Heads.head_reads Heads.rotate_polygon) = inr tt
  /\ Qgis.log
       (Heads.execute_head (Detected := Qgis.Feature string)
          (fun _ => None) (fun _ => None) Heads.rotate_polygon ∅ []
          {| Qgis.layer := Scenario.parcels; Qgis.log := [] |}).2
     = [Qgis.ShowError "Error" "No polygon features found at this location"].
Proof.
  assert (Heads.rotate_polygon ∈ Heads.feature_scope_heads) as Hin.
  { unfold Heads.feature_scope_heads.
    repeat (apply elem_of_cons; first [left; reflexivity | right]). }
  split; [exact Hin |]. split; [reflexivity |].
  exact (proj1 (proj2 (proj2
    (empty_detected_features_stops string (fun _ => None) (fun _ => None)
       Heads.rotate_polygon ∅ Scenario.parcels Hin eq_refl)))).
Defined.

(** ** Sampling searches *)

Module SnapFacts.
Import Snap.

Lemma Qltb_lt (x y : Q) : Qltb x y = true <-> (x < y)%Q.
Proof.
  unfold Qltb. rewrite Qlt_alt. destruct (x ?= y)%Q; split; congruence.
Qed.

Lemma Qltb_ge (x y : Q) : Qltb x y = false -> (y <= x)%Q.
Proof.
  intros H. apply Qnot_lt_le. intros Hlt. apply Qltb_lt in Hlt. congruence.
Qed.


Section Loop.

Context {Point : Type} (distance : Point -> Point -> Q).
Variables (point : Point) (f : Q -> Point).






End Loop.

End SnapFacts.



(** ** The smoothing router *)

Module SmoothFacts.
Import Smooth.

(** A new object is none of the objects that exist. *)
Lemma alloc_fresh {Geom : Type} (g : Geom) (h : gmap ref Geom) :
  h !! (alloc g h).1 = None
  /\ (alloc g h).2 !! (alloc g h).1 = Some g
  /\ (forall r, is_Some (h !! r) -> (alloc g h).2 !! r = h !! r).
Proof.
  unfold alloc. cbn [fst snd].
  assert (h !! fresh (dom h) = None) as Hf by apply not_elem_of_dom, is_fresh.
  split; [exact Hf |]. split; [by rewrite lookup_insert_eq |].
  intros r [x Hr]. rewrite lookup_insert_ne; [done |].
  intros <-. congruence.
Qed.

End SmoothFacts.

(** C9: whatever the method name, [smooth_geometry] does what
    [smooth_geometry_chaikin] does: an unknown name falls back to Chaikin
    and raises no error of its own. For an argument holding [g], the call
    returns a new object that holds what [smooth] returns for a geometry of
    value [g] with the given iterations and offset (it raises what [smooth]
    raises), and the argument, like every object that existed before the
    call, still holds its value, whatever [smooth] does to the object it is
    called on: that object is a copy. *)
Theorem smooth_geometry_is_chaikin
    (Geom Offset : Type) (qgs_smooth : Geom -> Z -> Offset -> PyExn + Geom)
    (smooth_receiver : Geom -> Z -> Offset -> Geom)
    (geometry : Smooth.ref) (method : string) (iterations : Z) (offset : Offset)
    (h : gmap Smooth.ref Geom) (g : Geom) :
  h !! geometry = Some g ->
  let run :=
    Smooth.smooth_geometry qgs_smooth smooth_receiver geometry method
      iterations offset h in
  run = Smooth.smooth_geometry_chaikin qgs_smooth smooth_receiver geometry
          iterations offset h
  /\ run.2 !! geometry = Some g
  /\ (forall r, is_Some (h !! r) -> run.2 !! r = h !! r)
  /\ match qgs_smooth g iterations offset with
     | inl e => run.1 = Raises e
     | inr g' =>
         exists r,
           run.1 = Returns r
           /\ r <> geometry
           /\ h !! r = None
           /\ run.2 !! r = Some g'
     end.
Proof.
  intros Hg run.
  assert (run = Smooth.smooth_geometry_chaikin qgs_smooth smooth_receiver
                  geometry iterations offset h) as Heq.
  { subst run. unfold Smooth.smooth_geometry.
    by destruct (String.eqb method "chaikin"). }
  split; [exact Heq |]. rewrite Heq. clear Heq run.
  unfold Smooth.smooth_geometry_chaikin. rewrite Hg.
  destruct (SmoothFacts.alloc_fresh g h) as (Hc & _ & Hkeep1).
  destruct (Smooth.alloc g h) as [copy h1] eqn:Ha1. cbn [fst snd] in *.
  set (h2 := <[copy := smooth_receiver g iterations offset]> h1).
  assert (forall r, is_Some (h !! r) -> h2 !! r = h !! r) as Hkeep2.
  { intros r Hr. subst h2. rewrite lookup_insert_ne; [by apply Hkeep1 |].
    intros <-. destruct Hr as [x Hr]. congruence. }
  destruct (qgs_smooth g iterations offset) as [e | g'] eqn:Hs.
  - cbn [fst snd]. split; [by rewrite Hkeep2 |]. by split.
  - destruct (SmoothFacts.alloc_fresh g' h2) as (Hf & Hnew & Hkeep3).
    destruct (Smooth.alloc g' h2) as [smoothed h3] eqn:Ha2.
    cbn [fst snd] in *.
    assert (forall r, is_Some (h !! r) -> h3 !! r = h !! r) as Hkeep.
    { intros r Hr. rewrite Hkeep3; [by apply Hkeep2 |].
      rewrite Hkeep2; done. }
    split; [by rewrite Hkeep |]. split; [exact Hkeep |].
    exists smoothed. split; [done |].
    assert (h !! smoothed = None) as Hnone.
    { destruct (h !! smoothed) as [x|] eqn:Hx; [| done].
      rewrite <- (Hkeep2 smoothed) in Hx by eauto. congruence. }
    split; [congruence |]. by split.
Qed.

Lemma smooth_geometry_is_chaikin_witness :
  let h : gmap Smooth.ref string := {[ 1%positive := "square" ]} in
  let run :=
    Smooth.smooth_geometry (fun g _ _ => inr ("smoothed " ++ g))
      (fun _ _ _ => "overwritten") 1%positive "spline" 2%Z (1 # 4)%Q h in
  h !! 1%positive = Some "square"
  /\ run.2 !! 1%positive = Some "square"
  /\ exists r, run.1 = Returns r /\ run.2 !! r = Some "smoothed square".
Proof.
  intros h run.
  assert (h !! 1%positive = Some "square") as Hg by reflexivity.
  split; [exact Hg |].
  destruct (smooth_geometry_is_chaikin string Q
              (fun g _ _ => inr ("smoothed " ++ g))
              (fun _ _ _ => "overwritten") 1%positive "spline" 2%Z (1 # 4)%Q
              h "square" Hg) as (_ & Hkept & _ & r & Hr & _ & _ & Hval).
  split; [exact Hkept |].
  exists r. split; [exact Hr | exact Hval].
Defined.

(** ** Message templates *)

Module FormatFacts.
Import PyFormat Template.

Lemma emit_nil (o : Outcome string) : emit "" o = o.
Proof. by destruct o. Qed.

Lemma append_cons (c : ascii) (s t : string) :
  String c s ++ t = String c (s ++ t).
Proof. reflexivity. Qed.

Lemma append_nil_l (t : string) : "" ++ t = t.
Proof. reflexivity. Qed.

Lemma append_assoc (s t u : string) : (s ++ t) ++ u = s ++ (t ++ u).
Proof.
  induction s as [|c s IH]; [done |]. rewrite !append_cons. by f_equal.
Qed.

Lemma append_nil_r (s : string) : s ++ "" = s.
Proof. induction s as [|c s IH]; [done |]. rewrite append_cons. by f_equal. Qed.

Lemma emit_emit (s t : string) (o : Outcome string) :
  emit s (emit t o) = emit (s ++ t) o.
Proof. destruct o; cbn; try done. by rewrite append_assoc. Qed.

(** Literal text without braces is copied. *)
Lemma format_text_literal (kw : gmap string string) (lit rest : string) :
  no_braces lit = true ->
  format_text kw (lit ++ rest) = emit lit (format_text kw rest).
Proof.
  induction lit as [|c lit IH]; simpl; intros H.
  - by rewrite emit_nil.
  - apply andb_prop in H as [Hc Hl].
    unfold is_brace in Hc. apply negb_true_iff, orb_false_elim in Hc as [-> ->].
    rewrite (IH Hl). by rewrite emit_emit.
Qed.

(** A field is read up to its closing brace and then looked up. *)
Lemma format_field_name (kw : gmap string string) (acc n rest : string) :
  plain_chars n = true ->
  format_field kw acc (n ++ String "}" rest) =
    match lookup_field kw (acc ++ n) with
    | Returns v => emit v (format_text kw rest)
    | o => o
    end.
Proof.
  revert acc. induction n as [|c n IH]; simpl; intros acc H.
  - by rewrite append_nil_r.
  - apply andb_prop in H as [H Hn]. apply andb_prop in H as [Hc Hs].
    apply negb_true_iff in Hc, Hs. rewrite Hc, Hs.
    rewrite (IH _ Hn). by rewrite append_assoc.
Qed.

(** A field is looked up once it has been read. *)
Lemma format_text_field (kw : gmap string string) (n rest : string) :
  plain_name n = true ->
  format_text kw (render_piece (Field n) ++ rest) =
    match lookup_field kw n with
    | Returns v => emit v (format_text kw rest)
    | o => o
    end.
Proof.
  intros H. destruct n as [|c n]; [done |].
  unfold plain_name in H. apply andb_prop in H as [Hp _].
  unfold render_piece. rewrite !append_assoc.
  change (format_text kw ("{" ++ String c n ++ "}" ++ rest))
    with (if Ascii.eqb c "{" then emit "{" (format_text kw (n ++ "}" ++ rest))
          else format_field kw "" (String c n ++ String "}" rest)).
  assert (Ascii.eqb c "{" = false) as ->.
  { simpl in Hp. apply andb_prop in Hp as [Hp _]. apply andb_prop in Hp as [_ Hs].
    apply negb_true_iff in Hs. unfold special in Hs.
    repeat (apply orb_false_elim in Hs as [Hs _]). done. }
  rewrite (format_field_name kw "" (String c n) rest Hp).
  by change ("" ++ String c n) with (String c n).
Qed.

Lemma is_digit_digitval (c : ascii) :
  is_digit c = true -> (0 <= digitval c <= 9)%Z.
Proof.
  unfold is_digit, digitval. intros H. apply andb_prop in H as [Hlo Hhi].
  apply Nat.leb_le in Hlo, Hhi. lia.
Qed.

(** A name with a character that is no digit is never an index. *)
Lemma get_integer_keyword (acc : Z) (n : string) :
  all_digits n = false ->
  get_integer acc n = NotAnIndex \/ get_integer acc n = TooManyDigits.
Proof.
  revert acc. induction n as [|c n IH]; intros acc H; [discriminate H |].
  cbn [all_digits get_integer] in *.
  destruct (is_digit c); [| by left].
  cbn [andb] in H.
  destruct (acc >? _)%Z; [by right | by apply IH].
Qed.

(** A name of digits alone is never a keyword. *)
Lemma get_integer_digits (acc : Z) (n : string) :
  all_digits n = true ->
  (exists k, get_integer acc n = IsIndex k) \/ get_integer acc n = TooManyDigits.
Proof.
  revert acc. induction n as [|c n IH]; intros acc H; [left; by eexists |].
  cbn [all_digits get_integer] in *.
  apply andb_prop in H as [-> Hn].
  destruct (acc >? _)%Z; [by right | by apply IH].
Qed.

Lemma leading_number_grows (acc : Z) (n : string) :
  (0 <= acc)%Z -> (acc <= leading_number acc n)%Z.
Proof.
  revert acc. induction n as [|c n IH]; intros acc Hacc; [done |].
  cbn [leading_number]. destruct (is_digit c) eqn:Hc; [| done].
  pose proof (is_digit_digitval c Hc) as Hd.
  etrans; [| apply IH]; lia.
Qed.

(** Leading digits that write a number within [Py_ssize_t] raise nothing. *)
Lemma get_integer_fits (acc : Z) (n : string) :
  (0 <= acc)%Z ->
  (leading_number acc n <= PY_SSIZE_T_MAX)%Z ->
  get_integer acc n <> TooManyDigits.
Proof.
  revert acc. induction n as [|c n IH]; intros acc Hacc Hfit; [done |].
  cbn [leading_number get_integer] in *.
  destruct (is_digit c) eqn:Hc; [| done].
  pose proof (is_digit_digitval c Hc) as Hd.
  pose proof (leading_number_grows (acc * 10 + digitval c) n) as Hg.
  destruct (acc >? (PY_SSIZE_T_MAX - digitval c) / 10)%Z eqn:Hov.
  - exfalso. apply Z.gtb_lt in Hov.
    assert (PY_SSIZE_T_MAX - digitval c < acc * 10)%Z; [| lia].
    pose proof (Z.mul_succ_div_gt (PY_SSIZE_T_MAX - digitval c) 10) as Hm.
    lia.
  - apply IH; [lia | done].
Qed.

Lemma lookup_field_plain (kw : gmap string string) (n : string) :
  keyword_name n = true ->
  lookup_field kw n =
    match kw !! n with Some v => Returns v | None => Raises KeyError end.
Proof.
  unfold keyword_name. intros H. apply andb_prop in H as [Hp Hfit].
  apply Z.leb_le in Hfit.
  destruct n as [|c n]; [done |].
  unfold plain_name in Hp. apply andb_prop in Hp as [_ Hd].
  apply negb_true_iff in Hd. unfold lookup_field.
  destruct (get_integer_keyword 0 (String c n) Hd) as [-> | Hov]; [done |].
  by destruct (get_integer_fits 0 (String c n)).
Qed.

(** Whatever its leading digits, a plain name is looked up among the
    keywords or refused for its digits. *)
Lemma lookup_field_plain_name (kw : gmap string string) (n : string) :
  plain_name n = true ->
  lookup_field kw n = Raises ValueError
  \/ lookup_field kw n =
       match kw !! n with Some v => Returns v | None => Raises KeyError end.
Proof.
  intros Hp. destruct n as [|c n]; [done |].
  unfold plain_name in Hp. apply andb_prop in Hp as [_ Hd].
  apply negb_true_iff in Hd. unfold lookup_field.
  destruct (get_integer_keyword 0 (String c n) Hd) as [-> | ->];
    [by right | by left].
Qed.

Lemma keyword_template_plain (ps : list Piece) :
  keyword_template ps = true -> plain ps = true.
Proof.
  unfold keyword_template, plain. induction ps as [|p ps IH]; [done |].
  cbn [forallb]. intros H. apply andb_prop in H as [Hp Hps].
  rewrite (IH Hps), andb_true_r.
  destruct p; try exact Hp. cbn [keyword_piece plain_piece] in *.
  unfold keyword_name in Hp. by apply andb_prop in Hp as [? _].
Qed.

(** Formatting a well-formed beginning, whatever follows it: the
    substitution, or [KeyError] as soon as one placeholder has no
    argument. *)
Lemma format_render_app (kw : gmap string string) (ps : list Piece)
    (rest : string) :
  keyword_template ps = true ->
  format_text kw (render ps ++ rest) =
    if all_present kw ps
    then emit (substitute kw ps) (format_text kw rest)
    else Raises KeyError.
Proof.
  unfold keyword_template, all_present.
  induction ps as [|p ps IH]; cbn [render substitute forallb]; intros H.
  - rewrite append_nil_l. by rewrite emit_nil.
  - apply andb_prop in H as [Hp Hps]. specialize (IH Hps).
    rewrite append_assoc.
    destruct p as [s | n | |];
      cbn [keyword_piece plain_piece field_present andb] in *.
    + rewrite (format_text_literal _ _ _ Hp), IH.
      cbn [render_piece substitute_piece].
      destruct (forallb (field_present kw) ps); [| done].
      by rewrite emit_emit.
    + assert (plain_name n = true) as Hn
        by (unfold keyword_name in Hp; by apply andb_prop in Hp as [? _]).
      rewrite (format_text_field kw n _ Hn), (lookup_field_plain kw n Hp), IH.
      cbn [substitute_piece].
      destruct (kw !! n) as [v|] eqn:Hv.
      * rewrite bool_decide_eq_true_2 by eauto. cbn [andb default].
        destruct (forallb (field_present kw) ps); [| done].
        by rewrite emit_emit.
      * rewrite bool_decide_eq_false_2; [done |]. by intros [? ?].
    + cbn [render_piece substitute_piece].
      change (format_text kw ("{{" ++ render ps ++ rest))
        with (emit "{" (format_text kw (render ps ++ rest))).
      rewrite IH. destruct (forallb (field_present kw) ps); [| done].
      by rewrite emit_emit.
    + cbn [render_piece substitute_piece].
      change (format_text kw ("}}" ++ render ps ++ rest))
        with (emit "}" (format_text kw (render ps ++ rest))).
      rewrite IH. destruct (forallb (field_present kw) ps); [| done].
      by rewrite emit_emit.
Qed.

(** Formatting a well-formed template. *)
Lemma format_render (kw : gmap string string) (ps : list Piece) :
  keyword_template ps = true ->
  PyFormat.format (render ps) kw =
    if all_present kw ps then Returns (substitute kw ps) else Raises KeyError.
Proof.
  intros H. unfold PyFormat.format.
  pose proof (format_render_app kw ps "" H) as Happ.
  rewrite append_nil_r in Happ. rewrite Happ.
  destruct (all_present kw ps); [| done].
  cbn [format_text emit]. by rewrite append_nil_r.
Qed.

(** With every placeholder supplied, a plain beginning is substituted
    unless the digits that one of its names begins with are refused. *)
Lemma format_render_supplied (kw : gmap string string) (ps : list Piece)
    (rest : string) :
  plain ps = true ->
  all_present kw ps = true ->
  format_text kw (render ps ++ rest) = Raises ValueError
  \/ format_text kw (render ps ++ rest)
     = emit (substitute kw ps) (format_text kw rest).
Proof.
  unfold plain, all_present.
  induction ps as [|p ps IH]; cbn [render substitute forallb]; intros H Ha.
  - right. rewrite append_nil_l. by rewrite emit_nil.
  - apply andb_prop in H as [Hp Hps]. apply andb_prop in Ha as [Hap Haps].
    specialize (IH Hps Haps). rewrite append_assoc.
    destruct p as [s | n | |]; cbn [plain_piece field_present] in *.
    + rewrite (format_text_literal _ _ _ Hp).
      cbn [render_piece substitute_piece].
      destruct IH as [-> | ->]; [by left | right; by rewrite emit_emit].
    + rewrite (format_text_field kw n _ Hp).
      apply bool_decide_eq_true_1 in Hap as [v Hv].
      destruct (lookup_field_plain_name kw n Hp) as [-> | ->]; [by left |].
      rewrite Hv. cbn [substitute_piece]. rewrite Hv. cbn [default].
      destruct IH as [-> | ->]; [by left | right; by rewrite emit_emit].
    + cbn [render_piece substitute_piece].
      change (format_text kw ("{{" ++ render ps ++ rest))
        with (emit "{" (format_text kw (render ps ++ rest))).
      destruct IH as [-> | ->]; [by left | right; by rewrite emit_emit].
    + cbn [render_piece substitute_piece].
      change (format_text kw ("}}" ++ render ps ++ rest))
        with (emit "}" (format_text kw (render ps ++ rest))).
      destruct IH as [-> | ->]; [by left | right; by rewrite emit_emit].
Qed.

End FormatFacts.

(** C10, as stated, fails: a template with a positional field makes
    [str.format] raise [IndexError], which [format_message_template] does not
    catch; no string is returned. *)
Lemma format_message_template_positional_field_raises :
  format_message_template (Num := Z) (fun _ => "0") "{0}" ∅ = Raises IndexError.
Proof. reflexivity. Qed.

(** C10 (amended): for every template made of brace-free text, doubled-brace
    escapes and fields whose name is a keyword (not empty, not a number,
    without markup characters, and whose leading digits, if any, write a
    number within [Py_ssize_t]), and for every keyword-argument mapping,
    [format_message_template] returns the template with every field
    replaced by its argument when all names are present, and the template
    unchanged when a name is missing. The snapping variant does the same
    once a numeric [distance_moved] has been rendered with the
    [decimal_places] setting. *)
Theorem format_message_template_substitutes
    (Num : Type) (str_of_num : Num -> string)
    (fixed_of_num : Num -> Z -> option string)
    (ps : list Piece) (kwargs : gmap string (PyVal Num))
    (x : Num) (d : Z) (txt : string) :
  Template.keyword_template ps = true ->
  fixed_of_num x d = Some txt ->
  format_message_template str_of_num (Template.render ps) kwargs =
    Returns (Template.substituted_or_unchanged
               (render_val str_of_num <$> kwargs) ps)
  /\ snap_format_message_template str_of_num fixed_of_num (inr d)
       (Template.render ps) (<["distance_moved" := PyNum x]> kwargs) =
     Returns (Template.substituted_or_unchanged
                (render_val str_of_num <$>
                   <["distance_moved" := PyStr txt]> kwargs) ps).
Proof.
  intros Hplain Hfix.
  assert (forall kw : gmap string (PyVal Num),
    format_message_template str_of_num (Template.render ps) kw =
    Returns (Template.substituted_or_unchanged
               (render_val str_of_num <$> kw) ps)) as Hmove.
  { intros kw. unfold format_message_template, Template.substituted_or_unchanged.
    rewrite (FormatFacts.format_render _ _ Hplain).
    by destruct (Template.all_present _ ps). }
  split; [apply Hmove |].
  unfold snap_format_message_template.
  rewrite lookup_insert_eq, Hfix, insert_insert_eq. apply Hmove.
Qed.

Lemma format_message_template_substitutes_witness :
  let ps := [Lit "Moved "; Field "distance_moved"; Lit " from ";
             Field "layer_name"; EscOpen; Lit "ok"; EscClose;
             Field "2nd"] in
  let kwargs : gmap string (PyVal Z) :=
    {[ "layer_name" := PyStr "roads"; "2nd" := PyStr "!" ]} in
  let str_of_num : Z -> string := fun _ => "3" in
  let fixed_of_num : Z -> Z -> option string := fun _ _ => Some "3.50" in
  Template.keyword_template ps = true
  /\ fixed_of_num 3%Z 2%Z = Some "3.50"
  /\ format_message_template str_of_num (Template.render ps) kwargs =
       Returns "Moved {distance_moved} from {layer_name}{{ok}}{2nd}"
  /\ snap_format_message_template str_of_num fixed_of_num (inr 2%Z)
       (Template.render ps) (<["distance_moved" := PyNum 3%Z]> kwargs) =
       Returns "Moved 3.50 from roads{ok}!".
Proof.
  intros ps kwargs str_of_num fixed_of_num.
  split; [reflexivity |]. split; [reflexivity |].
  apply (format_message_template_substitutes Z str_of_num fixed_of_num
           ps kwargs 3%Z 2%Z "3.50"); reflexivity.
Defined.

(** ** More on message templates *)

Module FormatMore.
Import PyFormat Template.

(** A numeric or empty field name indexes the empty tuple of positional
    arguments: never a [KeyError]. *)
Lemma lookup_field_positional (kw : gmap string string) (n : string) :
  all_digits n = true ->
  lookup_field kw n = Raises IndexError \/ lookup_field kw n = Raises ValueError.
Proof.
  intros Hd. destruct n as [|c n]; [by left |].
  unfold lookup_field.
  destruct (FormatFacts.get_integer_digits 0 (String c n) Hd)
    as [[k ->] | ->]; [by left | by right].
Qed.

Lemma all_digits_plain_chars (n : string) :
  all_digits n = true -> plain_chars n = true.
Proof.
  induction n as [|c n IH]; [done |]. cbn [all_digits plain_chars].
  intros H. apply andb_prop in H as [Hc Hn]. rewrite (IH Hn), andb_true_r.
  unfold is_digit in Hc. apply andb_prop in Hc as [Hlo Hhi].
  apply Nat.leb_le in Hlo, Hhi.
  assert (forall (d : ascii) (k : nat),
            nat_of_ascii d = k -> (k < 48 \/ 57 < k)%nat ->
            Ascii.eqb c d = false) as Hne.
  { intros d k Hk Hr. apply Ascii.eqb_neq. intros ->. lia. }
  unfold special.
  rewrite (Hne "}"%char 125%nat eq_refl), (Hne "{"%char 123%nat eq_refl),
    (Hne "!"%char 33%nat eq_refl), (Hne ":"%char 58%nat eq_refl),
    (Hne "."%char 46%nat eq_refl), (Hne "["%char 91%nat eq_refl) by lia.
  cbn [negb andb orb].
  apply negb_true_iff, Nat.leb_gt. lia.
Qed.

End FormatMore.

(** X1: a missing keyword hides whatever comes after it: when a well-formed
    beginning of the template (brace-free text, escapes and keyword fields,
    none with leading digits that [str.format] refuses) names a keyword
    that has no argument, the template is returned unchanged even if the
    rest of it is malformed. *)
Theorem format_message_template_missing_keyword_first
    (Num : Type) (str_of_num : Num -> string)
    (ps : list Piece) (rest : string) (kwargs : gmap string (PyVal Num)) :
  Template.keyword_template ps = true ->
  Template.all_present (render_val str_of_num <$> kwargs) ps = false ->
  format_message_template str_of_num (Template.render ps ++ rest) kwargs =
    Returns (Template.render ps ++ rest).
Proof.
  intros Hp Ha. unfold format_message_template, PyFormat.format.
  by rewrite (FormatFacts.format_render_app _ _ _ Hp), Ha.
Qed.

Lemma format_message_template_missing_keyword_first_witness :
  let ps := [Lit "Moved "; Field "nowhere"] in
  let kwargs : gmap string (PyVal Z) := {[ "feature_id" := PyNum 3%Z ]} in
  Template.keyword_template ps = true
  /\ Template.all_present (render_val (fun _ => "3") <$> kwargs) ps = false
  /\ format_message_template (fun _ => "3") (Template.render ps ++ " {") kwargs
     = Returns "Moved {nowhere} {".
Proof.
  intros ps kwargs. split; [reflexivity |]. split; [reflexivity |].
  by apply (format_message_template_missing_keyword_first Z (fun _ => "3")
              ps " {" kwargs).
Defined.

(** X2: errors other than a missing keyword escape: after a well-formed
    beginning whose keywords all have arguments, a template that ends in a
    single brace raises [ValueError], and a field with an empty or numeric
    name raises [IndexError] or [ValueError]; none of them is caught. *)
Theorem format_message_template_uncaught_errors
    (Num : Type) (str_of_num : Num -> string)
    (ps : list Piece) (digits rest : string)
    (kwargs : gmap string (PyVal Num)) :
  Template.plain ps = true ->
  Template.all_present (render_val str_of_num <$> kwargs) ps = true ->
  PyFormat.all_digits digits = true ->
  format_message_template str_of_num (Template.render ps ++ "{") kwargs
    = Raises ValueError
  /\ format_message_template str_of_num (Template.render ps ++ "}") kwargs
    = Raises ValueError
  /\ (format_message_template str_of_num
        (Template.render ps ++ "{" ++ digits ++ "}" ++ rest) kwargs
      = Raises IndexError
      \/ format_message_template str_of_num
           (Template.render ps ++ "{" ++ digits ++ "}" ++ rest) kwargs
         = Raises ValueError).
Proof.
  intros Hp Ha Hd. unfold format_message_template, PyFormat.format.
  set (kw := render_val str_of_num <$> kwargs) in *.
  assert (forall tail e,
            PyFormat.format_text kw tail = Raises e -> e <> KeyError ->
            PyFormat.format_text kw (Template.render ps ++ tail) = Raises e
            \/ PyFormat.format_text kw (Template.render ps ++ tail)
               = Raises ValueError) as Hend.
  { intros tail e Htail He.
    destruct (FormatFacts.format_render_supplied kw ps tail Hp Ha)
      as [-> | ->]; [by right |].
    rewrite Htail. by left. }
  split; [| split].
  - by destruct (Hend "{" ValueError eq_refl) as [-> | ->].
  - by destruct (Hend "}" ValueError eq_refl) as [-> | ->].
  - assert (PyFormat.format_text kw ("{" ++ digits ++ "}" ++ rest)
            = PyFormat.lookup_field kw digits) as Hfield.
    { destruct digits as [|c digits].
      - reflexivity.
      - pose proof (FormatMore.all_digits_plain_chars _ Hd) as Hpl.
        change (PyFormat.format_text kw
                  ("{" ++ String c digits ++ "}" ++ rest))
          with (if Ascii.eqb c "{"
                then PyFormat.emit "{"
                       (PyFormat.format_text kw (digits ++ "}" ++ rest))
                else PyFormat.format_field kw ""
                       (String c digits ++ String "}" rest)).
        assert (Ascii.eqb c "{" = false) as ->.
        { cbn [Template.plain_chars] in Hpl.
          apply andb_prop in Hpl as [Hpl _]. apply andb_prop in Hpl as [_ Hs].
          apply negb_true_iff in Hs. unfold PyFormat.special in Hs.
          repeat (apply orb_false_elim in Hs as [Hs _]). done. }
        rewrite (FormatFacts.format_field_name kw "" (String c digits)
                   rest Hpl).
        rewrite FormatFacts.append_nil_l.
        destruct (FormatMore.lookup_field_positional kw (String c digits) Hd)
          as [-> | ->]; done. }
    destruct (FormatMore.lookup_field_positional kw digits Hd) as [Hl | Hl];
      rewrite Hl in Hfield.
    + destruct (Hend _ IndexError Hfield) as [-> | ->];
        [done | by left | by right].
    + destruct (Hend _ ValueError Hfield) as [-> | ->];
        [done | by right | by right].
Qed.

Lemma format_message_template_uncaught_errors_witness :
  let ps := [Lit "Point "; Field "feature_id"] in
  let kwargs : gmap string (PyVal Z) := {[ "feature_id" := PyNum 3%Z ]} in
  Template.plain ps = true
  /\ Template.all_present (render_val (fun _ => "3") <$> kwargs) ps = true
  /\ PyFormat.all_digits "0" = true
  /\ format_message_template (fun _ => "3") (Template.render ps ++ "{") kwargs
     = Raises ValueError.
Proof.
  intros ps kwargs. split; [reflexivity |]. split; [reflexivity |].
  split; [reflexivity |].
  apply (format_message_template_uncaught_errors Z (fun _ => "3")
           ps "0" "" kwargs); reflexivity.
Defined.

(** ** More on the snapping searches *)

Module SnapMore.
Import Snap SnapSearch.

Lemma below_spec (d : Q) (m : option Q) :
  below d m = true <->
  match m with
  | None => True
  | Some m' => (d < m')%Q
  end.
Proof.
  destruct m as [m'|]; cbn [below]; [apply SnapFacts.Qltb_lt | done].
Qed.

Section Lines.

Context {Point : Type} (distance : Point -> Point -> Q).
Variables (point : Point) (max_distance : Q).

(** What the search holds after the features [seen], each with its layer. *)
Definition closest_of
    (seen : list (LineLayer (Point := Point) * LineFeature))
    (st : option (Closest (Point := Point))) : Prop :=
  match st with
  | None => Forall (fun lf => out_of_reach point max_distance lf.2) seen
  | Some (f, layer, p, d) =>
      (layer, f) ∈ seen
      /\ (exists g,
            feature_geometry f = Some g
            /\ d = line_distance g point
            /\ p = closest_point_on_line distance point g)
      /\ (d <= max_distance)%Q
      /\ Forall (fun lf => not_nearer point max_distance d lf.2) seen
  end.

Lemma not_nearer_weaken (d d' : Q) (f : LineFeature) :
  (d' <= d)%Q ->
  not_nearer point max_distance d f -> not_nearer point max_distance d' f.
Proof.
  unfold not_nearer. destruct (feature_geometry f) as [g|]; [| done].
  intros Hle [H | H]; [by left | right]. by eapply Qle_trans.
Qed.

Lemma out_of_reach_not_nearer (d : Q) (f : LineFeature) :
  out_of_reach point max_distance f -> not_nearer point max_distance d f.
Proof.
  unfold out_of_reach, not_nearer.
  destruct (feature_geometry f); [by left | done].
Qed.

Lemma feature_step_closest
    (seen : list (LineLayer * LineFeature)) (st : option Closest)
    (layer : LineLayer) (f : LineFeature) :
  closest_of seen st ->
  closest_of (seen ++ [(layer, f)])
             (feature_step distance point max_distance layer st f).
Proof.
  unfold feature_step.
  destruct (feature_geometry f) as [g|] eqn:Hg.
  - destruct (Qltb max_distance (line_distance g point)) eqn:Hmax.
    + (* too far *)
      apply SnapFacts.Qltb_lt in Hmax.
      destruct st as [[[[f0 l0] p0] d0]|]; cbn [closest_of].
      * intros (Hin & Hex & Hd & Hall).
        split; [apply elem_of_app; by left |]. split; [done |]. split; [done |].
        apply Forall_app. split; [done |]. constructor; [| constructor].
        unfold not_nearer; cbn. rewrite Hg. by left.
      * intros Hall. apply Forall_app. split; [done |].
        constructor; [| constructor]. unfold out_of_reach; cbn. by rewrite Hg.
    + apply SnapFacts.Qltb_ge in Hmax.
      destruct st as [[[[f0 l0] p0] d0]|]; cbn [closest_of option_map snd below].
      * intros (Hin & Hex & Hd & Hall).
        destruct (Qltb (line_distance g point) d0) eqn:Hlt.
        -- apply SnapFacts.Qltb_lt in Hlt.
           split; [apply elem_of_app; right; constructor |].
           split; [by exists g |]. split; [done |].
           apply Forall_app. split.
           ++ eapply Forall_impl; [exact Hall |]. intros lf.
              apply not_nearer_weaken. by apply Qlt_le_weak.
           ++ constructor; [| constructor]. unfold not_nearer; cbn.
              rewrite Hg. right. apply Qle_refl.
        -- apply SnapFacts.Qltb_ge in Hlt.
           split; [apply elem_of_app; by left |]. split; [done |].
           split; [done |].
           apply Forall_app. split; [done |]. constructor; [| constructor].
           unfold not_nearer; cbn. rewrite Hg. by right.
      * intros Hall.
        split; [apply elem_of_app; right; constructor |].
        split; [by exists g |]. split; [done |].
        apply Forall_app. split.
        -- eapply Forall_impl; [exact Hall |]. intros lf.
           apply out_of_reach_not_nearer.
        -- constructor; [| constructor]. unfold not_nearer; cbn.
           rewrite Hg. right. apply Qle_refl.
  - (* no geometry: continue *)
    destruct st as [[[[f0 l0] p0] d0]|]; cbn [closest_of].
    + intros (Hin & Hex & Hd & Hall).
      split; [apply elem_of_app; by left |]. split; [done |]. split; [done |].
      apply Forall_app. split; [done |]. constructor; [| constructor].
      unfold not_nearer; cbn. by rewrite Hg.
    + intros Hall. apply Forall_app. split; [done |].
      constructor; [| constructor]. unfold out_of_reach; cbn. by rewrite Hg.
Qed.

Lemma layer_fold_closest
    (layer : LineLayer) (fs : list LineFeature)
    (seen : list (LineLayer * LineFeature)) (st : option Closest) :
  closest_of seen st ->
  closest_of (seen ++ map (fun f => (layer, f)) fs)
    (fold_left (feature_step distance point max_distance layer) fs st).
Proof.
  revert seen st. induction fs as [|f fs IH]; intros seen st H; cbn [fold_left map].
  - by rewrite app_nil_r.
  - specialize (IH (seen ++ [(layer, f)])%list _
                  (feature_step_closest seen st layer f H)).
    by rewrite <- app_assoc in IH.
Qed.

Lemma layers_fold_closest
    (layers : list LineLayer)
    (seen : list (LineLayer * LineFeature)) (st : option Closest) :
  closest_of seen st ->
  closest_of (seen ++ visited layers)
    (fold_left
       (fun closest layer =>
          fold_left (feature_step distance point max_distance layer)
                    (layer_features layer) closest)
       layers st).
Proof.
  revert seen st. induction layers as [|layer layers IH]; intros seen st H;
    cbn [fold_left].
  - unfold visited. cbn. by rewrite app_nil_r.
  - unfold visited. cbn [map List.concat]. rewrite app_assoc.
    apply IH. by apply layer_fold_closest.
Qed.

End Lines.

End SnapMore.

Import Snap SnapSearch.

(** X3: [_find_closest_line] returns nothing exactly when every feature is
    without geometry or farther than [max_distance]; otherwise it returns a
    feature of one of the layers, within [max_distance], that no feature in
    reach beats in distance, with that exact distance and the nearest of the
    101 points sampled on that same feature. *)
Theorem find_closest_line_nearest_in_reach
    (Point : Type) (distance : Point -> Point -> Q)
    (point : Point) (line_layers : list (LineLayer (Point := Point)))
    (max_distance : Q) :
  match _find_closest_line distance point line_layers max_distance with
  | None =>
      Forall (fun lf => out_of_reach point max_distance lf.2)
             (visited line_layers)
  | Some (feature, layer, closest_point, d) =>
      (layer, feature) ∈ visited line_layers
      /\ (exists g,
            feature_geometry feature = Some g
            /\ d = line_distance g point
            /\ closest_point = closest_point_on_line distance point g)
      /\ (d <= max_distance)%Q
      /\ Forall (fun lf => not_nearer point max_distance d lf.2)
                (visited line_layers)
  end.
Proof.
  pose proof (SnapMore.layers_fold_closest distance point max_distance
                line_layers [] None) as H.
  unfold _find_closest_line.
  cbn [app] in H. specialize (H (List.Forall_nil _)).
  unfold SnapMore.closest_of in H.
  destruct (fold_left _ line_layers None) as [[[[f l] p] d]|]; exact H.
Qed.

Module BoundaryFacts.
Section Raising.
Context {Point : Type} (distance : Point -> Point -> Q).
Variables (point : Point) (interpolate : Q -> PyExn + Point).

Lemma sample_fold_raised (ts : list Q) (e : PyExn) :
  fold_left (sample_step distance point interpolate) ts (inl e) = inl e.
Proof. induction ts as [|t ts IH]; [done |]. exact IH. Qed.

Lemma sample_fold_raises (ts : list Q) (t : Q) (e : PyExn)
    (st : PyExn + (option Point * option Q)) :
  t ∈ ts -> interpolate t = inl e ->
  exists e', fold_left (sample_step distance point interpolate) ts st = inl e'.
Proof.
  revert st. induction ts as [|t0 ts IH]; intros st Hin He.
  - by apply elem_of_nil in Hin.
  - cbn [fold_left]. apply elem_of_cons in Hin as [<- | Hin].
    + destruct st as [e0 | [c m]]; cbn [sample_step].
      * exists e0. apply sample_fold_raised.
      * rewrite He. exists e. apply sample_fold_raised.
    + by apply IH.
Qed.
End Raising.
End BoundaryFacts.

(** X4: when the interpolation of one of the 501 sample positions raises,
    [_find_closest_point_on_boundary] gives up on the ring and returns the
    centroid. *)
Theorem find_closest_point_on_boundary_falls_back
    (Point : Type) (distance : Point -> Point -> Q)
    (point c : Point) (ring : Ring (Point := Point)) (i : nat) (e : PyExn) :
  (0 < ring_length ring)%Q ->
  (i < 501)%nat ->
  ring_interpolate ring
    (inject_Z (Z.of_nat i) / inject_Z 500 * ring_length ring)%Q = inl e ->
  _find_closest_point_on_boundary distance point
    {| exteriorRing := inr (Some ring); centroid := c |} = Some c.
Proof.
  intros Hlen Hi He.
  unfold _find_closest_point_on_boundary.
  cbn [exteriorRing centroid].
  apply SnapFacts.Qltb_lt in Hlen. rewrite Hlen.
  destruct (BoundaryFacts.sample_fold_raises distance point (ring_interpolate ring)
              (sample_positions 501 (ring_length ring))
              (inject_Z (Z.of_nat i) / inject_Z 500 * ring_length ring)%Q
              e (inr (None, None))) as [e' He'].
  - unfold sample_positions. apply list_elem_of_fmap. exists i.
    split; [reflexivity |]. apply elem_of_seq. lia.
  - exact He.
  - unfold sample_loop. by rewrite He'.
Qed.

Lemma find_closest_point_on_boundary_falls_back_witness :
  let ring : Ring (Point := Q) :=
    {| ring_length := 1%Q; ring_interpolate := fun _ => inl ValueError |} in
  (0 < ring_length ring)%Q
  /\ (0 < 501)%nat
  /\ ring_interpolate ring
       (inject_Z (Z.of_nat 0) / inject_Z 500 * ring_length ring)%Q
     = inl ValueError
  /\ _find_closest_point_on_boundary (fun a b => (a - b)%Q) 0%Q
       {| exteriorRing := inr (Some ring); centroid := 5%Q |} = Some 5%Q.
Proof.
  intros ring. split; [reflexivity |]. split; [lia |]. split; [reflexivity |].
  apply (find_closest_point_on_boundary_falls_back Q (fun a b => (a - b)%Q)
           0%Q 5%Q ring 0 ValueError); [reflexivity | lia | reflexivity].
Defined.


Module PolygonMore.
Section Centroids.

Context {Point : Type} (distance : Point -> Point -> Q).
Variables (point : Point) (max_distance : Q).
Variables (snap_to_boundary prefer_centroid : bool).
Hypothesis centroid_only : snap_to_boundary && negb prefer_centroid = false.






End Centroids.
End PolygonMore.



(** ** Settings: keys, defaults and invalid values *)

Module KeyFacts.
Import SettingsKeys.

Lemma split_at_slash (a a' n n' : string) :
  no_slash a = true -> no_slash a' = true ->
  a ++ "/" ++ n = a' ++ "/" ++ n' -> a = a' /\ n = n'.
Proof.
  revert a'. induction a as [|c a IH]; intros [|c' a'] Ha Ha' Heq.
  - rewrite !FormatFacts.append_nil_l in Heq. by simplify_eq.
  - rewrite FormatFacts.append_nil_l, FormatFacts.append_cons in Heq.
    cbn [no_slash] in Ha'. apply andb_prop in Ha' as [Hc _].
    apply negb_true_iff, Ascii.eqb_neq in Hc.
    change ("/" ++ n) with (String "/" n) in Heq.
    injection Heq as E _. congruence.
  - rewrite FormatFacts.append_nil_l, FormatFacts.append_cons in Heq.
    cbn [no_slash] in Ha. apply andb_prop in Ha as [Hc _].
    apply negb_true_iff, Ascii.eqb_neq in Hc.
    change ("/" ++ n') with (String "/" n') in Heq.
    injection Heq as E _. congruence.
  - rewrite !FormatFacts.append_cons in Heq.
    cbn [no_slash] in Ha, Ha'.
    apply andb_prop in Ha as [_ Ha]. apply andb_prop in Ha' as [_ Ha'].
    injection Heq as -> Heq.
    destruct (IH a' Ha Ha' Heq) as [-> ->]. done.
Qed.

(** The key determines the action and the setting. *)
Lemma key_injective (action_id action_id' setting_name setting_name' : string) :
  no_slash action_id = true ->
  no_slash action_id' = true ->
  Settings.key action_id setting_name = Settings.key action_id' setting_name' ->
  action_id = action_id' /\ setting_name = setting_name'.
Proof.
  intros Ha Ha' Heq. unfold Settings.key in Heq.
  apply (inj (String.append "RightClickUtilities/")) in Heq.
  by apply split_at_slash.
Qed.

End KeyFacts.

(** X6: the key that [get_setting] builds keeps the settings of the actions
    apart. For action ids without ["/"], which the ids of all 31 actions
    are: once a value is stored under the key of one action's setting,
    [get_setting] of that action and setting returns it, and [get_setting]
    of any other pair of action and setting, the same name under another
    action included, returns what it returned before. *)
Theorem stored_setting_read_back
    (store : gmap string Settings.Value) (v d : Settings.Value)
    (action_id action_id' setting_name setting_name' : string) :
  SettingsKeys.no_slash action_id = true ->
  SettingsKeys.no_slash action_id' = true ->
  (action_id, setting_name) <> (action_id', setting_name') ->
  Settings.get_setting (<[Settings.key action_id setting_name := v]> store)
    action_id setting_name d = v
  /\ Settings.get_setting (<[Settings.key action_id setting_name := v]> store)
       action_id' setting_name' d
     = Settings.get_setting store action_id' setting_name' d
  /\ forallb (fun a => SettingsKeys.no_slash (Capability.action_id a))
       Capability.discovered_actions = true.
Proof.
  intros Ha Ha' Hne. unfold Settings.get_setting.
  split; [by rewrite lookup_insert_eq |]. split; [| by vm_compute].
  rewrite lookup_insert_ne; [done |].
  intros Heq. apply Hne.
  by destruct (KeyFacts.key_injective _ _ _ _ Ha Ha' Heq) as [-> ->].
Qed.

Lemma stored_setting_read_back_witness :
  SettingsKeys.no_slash "rotate_polygon" = true
  /\ SettingsKeys.no_slash "smooth_polygon" = true
  /\ ("rotate_polygon", "rollback_on_error")
     <> ("smooth_polygon", "rollback_on_error")
  /\ Settings.get_setting
       (<[Settings.key "rotate_polygon" "rollback_on_error"
            := Settings.VBool false]> ∅)
       "smooth_polygon" "rollback_on_error" (Settings.VBool true)
     = Settings.get_setting ∅
         "smooth_polygon" "rollback_on_error" (Settings.VBool true).
Proof.
  assert (("rotate_polygon", "rollback_on_error")
          <> ("smooth_polygon", "rollback_on_error")) as Hne by discriminate.
  split; [reflexivity |]. split; [reflexivity |]. split; [exact Hne |].
  exact (proj1 (proj2
    (stored_setting_read_back ∅ (Settings.VBool false) (Settings.VBool true)
       "rotate_polygon" "smooth_polygon"
       "rollback_on_error" "rollback_on_error" eq_refl eq_refl Hne))).
Defined.

Module HeadFacts.



(** With no value stored for an action, its conversions see the defaults. *)
Lemma read_all_unset (parse_float : string -> option Q)
    (parse_int : string -> option Z) (store : gmap string Settings.Value)
    (action_id : string)
    (reads : list (Settings.Conv * string * Settings.Value)) :
  (forall name, store !! Settings.key action_id name = None) ->
  Settings.read_all parse_float parse_int store action_id reads
  = Settings.read_all parse_float parse_int ∅ action_id reads.
Proof.
  intros Hunset. induction reads as [|[[c name] d] reads IH]; [done |].
  cbn [Settings.read_all]. unfold Settings.get_setting.
  by rewrite Hunset, lookup_empty, IH.
Qed.

End HeadFacts.



(** X8: the defaults written in the settings block of every feature-scope
    action convert: for an action that has no value stored under any of its
    keys, whatever other actions have stored and whatever [int] and [float]
    make of strings, no conversion raises, so the "Invalid setting values"
    branch is not taken. *)
Theorem default_settings_convert
    (parse_float : string -> option Q) (parse_int : string -> option Z)
    (h : Heads.Head) (store : gmap string Settings.Value) :
  h ∈ Heads.feature_scope_heads ->
  (forall name, store !! Settings.key (Heads.head_id h) name = None) ->
  Settings.read_all parse_float parse_int store
    (Heads.head_id h) (Heads.head_reads h) = inr tt.
Proof.
  intros Hin Hunset.
  rewrite (HeadFacts.read_all_unset _ _ _ _ _ Hunset).
  clear Hunset. unfold Heads.feature_scope_heads in Hin.
  repeat (apply elem_of_cons in Hin as [-> | Hin]);
    try (by apply elem_of_nil in Hin); reflexivity.
Qed.

Lemma default_settings_convert_witness :
  Heads.smooth_polygon ∈ Heads.feature_scope_heads
  /\ (forall name,
        (∅ : gmap string Settings.Value)
          !! Settings.key (Heads.head_id Heads.smooth_polygon) name = None)
  /\ Settings.read_all (fun _ => None) (fun _ => None) ∅
       (Heads.head_id Heads.smooth_polygon)
       (Heads.head_reads Heads.smooth_polygon) = inr tt.
Proof.
  assert (Heads.smooth_polygon ∈ Heads.feature_scope_heads) as Hin.
  { unfold Heads.feature_scope_heads.
    repeat (apply elem_of_cons; first [left; reflexivity | right]). }
  assert (forall name,
            (∅ : gmap string Settings.Value)
              !! Settings.key (Heads.head_id Heads.smooth_polygon) name = None)
    as Hunset by (intros name; apply lookup_empty).
  split; [exact Hin |]. split; [exact Hunset |].
  exact (default_settings_convert (fun _ => None) (fun _ => None)
           Heads.smooth_polygon ∅ Hin Hunset).
Defined.

(** ** What the record of a run shows *)

Module TraceTactics.

(** Settle one path of a run: the record is a list of known calls. *)
Ltac leaf :=
  lazymatch goal with
  | |- _ /\ _ => split; leaf
  | |- forall _, _ =>
      let H := fresh "H" in
      intros H;
      lazymatch type of H with
      | _ ∈ _ =>
          repeat (apply elem_of_cons in H as [H | H];
                  [try discriminate H; try (simplify_eq; leaf) |]);
          try (by apply elem_of_nil in H)
      | _ = _ => first [discriminate H | leaf]
      | _ => leaf
      end
  | |- _ \/ _ => first [left; reflexivity | right; leaf]
  | |- _ ∈ _ => repeat (apply elem_of_cons; first [left; reflexivity | right])
  | |- (_ <= _)%nat => cbv; lia
  | |- _ => reflexivity
  end.

(** Membership in a record that evaluates. *)
Ltac recorded :=
  vm_compute;
  repeat first [apply list_elem_of_here | apply list_elem_of_further].

End TraceTactics.

Module TraceFacts.
Import Qgis.

(** Every path of the three strategies, followed to its end. *)
Lemma run_record
    (Geom : Type) (P : Mutating.Platform Geom) (s : Mutating.Strategy)
    (i : Mutating.Input Geom s) (l : Layer Geom) :
  Trace.sound l (Mutating.invoke P s i l).
Proof.
  unfold Mutating.invoke, Mutating.run.
  destruct l as [stored0 [buffer|]].
  all: destruct s; [| | destruct i as [[env feature] new_geometry]];
    unfold RotatePolygon.execute, SmoothPolygon.execute,
      SmoothPolygon.ask_user, MovePoint._move_feature_to_geometry,
      Heads.execute_head;
    RunTactics.split_run.
  all: unfold Trace.sound; RunTactics.run_step.
  all: try (TraceTactics.leaf; fail).
Qed.

End TraceFacts.

(** X9: the success message is honest. In [rotate_polygon],
    [smooth_polygon] and [_move_feature_to_geometry], whenever [show_info] is
    called, the layer had accepted the change ([updateFeature] or
    [addFeature] answered true), no [show_error] was called in the run and
    no [commit_changes] of the run answered false. *)
Theorem success_message_means_success
    (Geom : Type) (P : Mutating.Platform Geom) (s : Mutating.Strategy)
    (i : Mutating.Input Geom s) (l : Qgis.Layer Geom) (title text : string) :
  Qgis.ShowInfo title text ∈ Qgis.log (Mutating.invoke P s i l).2 ->
  existsb Trace.accepted_change (Qgis.log (Mutating.invoke P s i l).2) = true
  /\ existsb Trace.error_shown (Qgis.log (Mutating.invoke P s i l).2) = false
  /\ existsb Trace.refused_commit (Qgis.log (Mutating.invoke P s i l).2)
     = false.
Proof.
  exact (proj1 (proj2 (TraceFacts.run_record Geom P s i l)) title text).
Qed.

Lemma success_message_means_success_witness :
  let run :=
    Mutating.invoke Scenario.platform Mutating.rotate_polygon
      (Scenario.rotate_square Runs.accepting) Scenario.parcels in
  Qgis.ShowInfo "Success" "Polygon feature ID 7 rotated successfully"
    ∈ Qgis.log run.2
  /\ existsb Trace.accepted_change (Qgis.log run.2) = true
  /\ existsb Trace.error_shown (Qgis.log run.2) = false
  /\ existsb Trace.refused_commit (Qgis.log run.2) = false.
Proof.
  intros run.
  assert (Qgis.ShowInfo "Success" "Polygon feature ID 7 rotated successfully"
            ∈ Qgis.log run.2) as H by TraceTactics.recorded.
  split; [exact H |].
  exact (success_message_means_success string Scenario.platform
           Mutating.rotate_polygon (Scenario.rotate_square Runs.accepting)
           Scenario.parcels _ _ H).
Defined.

(** X10: [commit_changes] is called only for a change that exists: in the
    three strategies, whenever [commit_changes] is called, [handle_edit_mode]
    had answered with a record and the layer had accepted the change. A
    rejected change and a cancelled dialog never lead to a commit. *)
Theorem commit_follows_accepted_change
    (Geom : Type) (P : Mutating.Platform Geom) (s : Mutating.Strategy)
    (i : Mutating.Input Geom s) (l : Qgis.Layer Geom) (ok : bool) :
  Qgis.CommitChanges ok ∈ Qgis.log (Mutating.invoke P s i l).2 ->
  existsb Trace.accepted_change (Qgis.log (Mutating.invoke P s i l).2) = true
  /\ existsb Trace.edit_mode_handled (Qgis.log (Mutating.invoke P s i l).2)
     = true.
Proof.
  exact (proj1 (proj2 (proj2 (TraceFacts.run_record Geom P s i l))) ok).
Qed.

Lemma commit_follows_accepted_change_witness :
  let run :=
    Mutating.invoke Scenario.platform Mutating.rotate_polygon
      (Scenario.rotate_square Scenario.commit_refused) Scenario.parcels in
  Qgis.CommitChanges false ∈ Qgis.log run.2
  /\ existsb Trace.accepted_change (Qgis.log run.2) = true
  /\ existsb Trace.edit_mode_handled (Qgis.log run.2) = true.
Proof.
  intros run.
  assert (Qgis.CommitChanges false ∈ Qgis.log run.2) as H
    by TraceTactics.recorded.
  split; [exact H |].
  exact (commit_follows_accepted_change string Scenario.platform
           Mutating.rotate_polygon
           (Scenario.rotate_square Scenario.commit_refused)
           Scenario.parcels false H).
Defined.

(** X11: [rollback_changes] is called from the [except] clause only: in the
    three strategies, whenever it is called, [handle_edit_mode] had answered
    with a record and [show_error] was called in the run. *)
Theorem rollback_follows_reported_error
    (Geom : Type) (P : Mutating.Platform Geom) (s : Mutating.Strategy)
    (i : Mutating.Input Geom s) (l : Qgis.Layer Geom) :
  Qgis.RollbackChanges ∈ Qgis.log (Mutating.invoke P s i l).2 ->
  existsb Trace.edit_mode_handled (Qgis.log (Mutating.invoke P s i l).2)
  = true
  /\ existsb Trace.error_shown (Qgis.log (Mutating.invoke P s i l).2) = true.
Proof.
  exact (proj1 (proj2 (proj2 (proj2 (TraceFacts.run_record Geom P s i l))))).
Qed.

Lemma rollback_follows_reported_error_witness :
  let run :=
    Mutating.invoke Runs.rotation_raises Mutating.rotate_polygon
      (Scenario.rotate_square Runs.accepting) Scenario.parcels in
  Qgis.RollbackChanges ∈ Qgis.log run.2
  /\ existsb Trace.edit_mode_handled (Qgis.log run.2) = true
  /\ existsb Trace.error_shown (Qgis.log run.2) = true.
Proof.
  intros run.
  assert (Qgis.RollbackChanges ∈ Qgis.log run.2) as H
    by TraceTactics.recorded.
  split; [exact H |].
  exact (rollback_follows_reported_error string Runs.rotation_raises
           Mutating.rotate_polygon (Scenario.rotate_square Runs.accepting)
           Scenario.parcels H).
Defined.

(** X12: one invocation changes at most one feature: in the three
    strategies a run calls [updateFeature] or [addFeature] at most once,
    never both. *)
Theorem at_most_one_provider_call
    (Geom : Type) (P : Mutating.Platform Geom) (s : Mutating.Strategy)
    (i : Mutating.Input Geom s) (l : Qgis.Layer Geom) :
  (List.length
     (List.filter Trace.provider_call (Qgis.log (Mutating.invoke P s i l).2))
   <= 1)%nat.
Proof.
  exact (proj1 (proj2 (proj2 (proj2 (proj2
    (TraceFacts.run_record Geom P s i l)))))).
Qed.

(** X13: when [handle_edit_mode] answers [(None, None)], the strategy
    returns at once: the run holds no call of [updateFeature], [addFeature],
    [commit_changes], [rollback_changes] or [exit_edit_mode], and the layer
    is as it was. *)
Theorem failed_edit_mode_entry_is_inert
    (Geom : Type) (P : Mutating.Platform Geom) (s : Mutating.Strategy)
    (i : Mutating.Input Geom s) (l : Qgis.Layer Geom) :
  Qgis.HandleEditMode None ∈ Qgis.log (Mutating.invoke P s i l).2 ->
  Qgis.layer (Mutating.invoke P s i l).2 = l
  /\ forallb Trace.harmless (Qgis.log (Mutating.invoke P s i l).2) = true.
Proof.
  exact (proj1 (TraceFacts.run_record Geom P s i l)).
Qed.

Lemma failed_edit_mode_entry_is_inert_witness :
  let run :=
    Mutating.invoke Scenario.platform Mutating.rotate_polygon
      (Scenario.rotate_square Runs.read_only) Scenario.parcels in
  Qgis.HandleEditMode None ∈ Qgis.log run.2
  /\ Qgis.layer run.2 = Scenario.parcels
  /\ forallb Trace.harmless (Qgis.log run.2) = true.
Proof.
  intros run.
  assert (Qgis.HandleEditMode None ∈ Qgis.log run.2) as H
    by TraceTactics.recorded.
  split; [exact H |].
  exact (failed_edit_mode_entry_is_inert string Scenario.platform
           Mutating.rotate_polygon (Scenario.rotate_square Runs.read_only)
           Scenario.parcels H).
Defined.

(** ** [open_coordinates_in_map] *)

Module OpenCoordinatesFacts.
Import OpenCoordinates.

Ltac step :=
  cbv beta iota zeta delta
    [Py.bind Py.ret Py.when Py.return_ Py.raise Py.lift Py.try_except
     try_except_value call fst snd negb orb andb Heads.caught_by_head].

Ltac paths :=
  repeat (step;
          match goal with
          | |- context [match ?x with _ => _ end] =>
              lazymatch x with
              | context [match _ with _ => _ end] => fail
              | _ => destruct x eqn:?
              end
          end).

Lemma build_map_url_clamped
    (float_text : Q -> string) (int_text : Z -> string)
    (lat lon : Q) (map_service : string) (zoom_level : Z) :
  _build_map_url float_text int_text lat lon map_service zoom_level
  = _build_map_url float_text int_text lat lon map_service
      (Z.max 1 (Z.min 20 zoom_level)).
Proof.
  unfold _build_map_url.
  by replace (Z.max 1 (Z.min 20 (Z.max 1 (Z.min 20 zoom_level))))
    with (Z.max 1 (Z.min 20 zoom_level)) by lia.
Qed.

End OpenCoordinatesFacts.

(** X14: [open_coordinates_in_map] opens the browser only for a valid place.
    Whenever [webbrowser.open] is called, the settings had converted, a
    click point and a canvas were present, the longitude and latitude (the
    click point itself when the canvas is in EPSG:4326, its transformation
    otherwise) lie within -180..180 and -90..90, and the URL is the one
    [_build_map_url] builds for them, with a zoom level between 1 and 20
    whatever zoom level is stored. It is the only call of [webbrowser.open]
    in the run, no error was reported before it, and the only error that
    can follow is "Failed to open browser". *)
Theorem browser_opened_within_bounds
    (parse_int : string -> option Z) (repr : Settings.Value -> string)
    (float_text fixed6 : Q -> string) (int_text : Z -> string)
    (env : OpenCoordinates.Env) (url : string) :
  let run :=
    OpenCoordinates.execute parse_int repr float_text fixed6 int_text env [] in
  OpenCoordinates.WebbrowserOpen url ∈ run.2 ->
  exists x y cv lon lat zoom_level,
    OpenCoordinates.click_point env = Some (x, y)
    /\ OpenCoordinates.canvas env = Some cv
    /\ (OpenCoordinates.crs_is_wgs84 cv = inr true /\ (lon, lat) = (x, y)
        \/ OpenCoordinates.crs_is_wgs84 cv = inr false
           /\ OpenCoordinates.transform cv x y = inr (lon, lat))
    /\ OpenCoordinates.between (-180) lon 180 = true
    /\ OpenCoordinates.between (-90) lat 90 = true
    /\ Settings.py_int parse_int
         (OpenCoordinates.read env "zoom_level" (Settings.VInt 15))
       = inr zoom_level
    /\ (1 <= Z.max 1 (Z.min 20 zoom_level) <= 20)%Z
    /\ url = OpenCoordinates._build_map_url float_text int_text lat lon
               (Settings.py_str repr
                  (OpenCoordinates.read env "map_service"
                     (Settings.VStr "Google Maps")))
               (Z.max 1 (Z.min 20 zoom_level))
    /\ List.filter OpenCoordinates.is_browser run.2
       = [OpenCoordinates.WebbrowserOpen url]
    /\ (forall title text, OpenCoordinates.ShowError title text ∈ run.2 ->
          exists e, OpenCoordinates.browser env = inl e
                    /\ text = "Failed to open browser: " ++ exn_text e).
Proof.
  intros run. subst run. unfold OpenCoordinates.execute.
  OpenCoordinatesFacts.paths.
  all: OpenCoordinatesFacts.step.
  all: intros H; cbn [app] in H.
  all: repeat (apply elem_of_cons in H as [H | H]; [try discriminate H |]);
         try (by apply elem_of_nil in H).
  all: injection H as ->.
  all: eexists _, _, _, _, _, _.
  all: split; [reflexivity |]. 
  all: split; [reflexivity |].
  all: split; [first [left; split; [eassumption | reflexivity]
                     | right; split; eassumption] |].
  all: split; [assumption |].
  all: split; [assumption |].
  all: split; [reflexivity |].
  all: split; [lia |].
  all: split; [apply OpenCoordinatesFacts.build_map_url_clamped |].
  all: split; [reflexivity |].
  all: intros title text H; cbn [app] in H.
  all: repeat (apply elem_of_cons in H as [H | H]; [try discriminate H |]);
         try (by apply elem_of_nil in H).
  all: injection H as -> ->.
  all: eexists; split; reflexivity.
Qed.

Lemma browser_opened_within_bounds_witness :
  let env :=
    {| OpenCoordinates.store :=
         {[ Settings.key "open_coordinates_in_map" "zoom_level"
              := Settings.VInt 99 ]};
       OpenCoordinates.click_point := Some (21 # 1, 52 # 1);
       OpenCoordinates.canvas :=
         Some {| OpenCoordinates.crs_is_wgs84 := inr true;
                 OpenCoordinates.transform := fun x y => inr (x, y) |};
       OpenCoordinates.browser := inr tt |} in
  let text := fun q : Q => if Qeq_bool q (21 # 1) then "21.0" else "52.0" in
  let run :=
    OpenCoordinates.execute (fun _ => None) (fun _ => "")
      text text (fun z => if (z =? 20)%Z then "20" else "?") env [] in
  OpenCoordinates.WebbrowserOpen "https://www.google.com/maps?q=52.0,21.0&z=20"
    ∈ run.2
  /\ List.filter OpenCoordinates.is_browser run.2
     = [OpenCoordinates.WebbrowserOpen
          "https://www.google.com/maps?q=52.0,21.0&z=20"].
Proof.
  intros env text run.
  assert (OpenCoordinates.WebbrowserOpen
            "https://www.google.com/maps?q=52.0,21.0&z=20" ∈ run.2) as H.
  { vm_compute.
    repeat first [apply list_elem_of_here | apply list_elem_of_further]. }
  split; [exact H |].
  destruct (browser_opened_within_bounds (fun _ => None) (fun _ => "")
              text text (fun z => if (z =? 20)%Z then "20" else "?") env _ H)
    as (x & y & cv & lon & lat & zoom_level & _ & _ & _ & _ & _ & _ & _ & _
        & Hone & _).
  exact Hone.
Defined.

(** ** [move_point_with_click]: from [execute] to the move *)

Module SessionFacts.
Import Qgis Settings MovePointSession.

(** Unfold the statements of a run, the record kept as a concatenation. *)
Ltac step :=
  cbv beta iota zeta delta
    [Py.bind Py.ret Py.when Py.return_ Py.raise Py.lift Py.try_except
     Py.try_except_finally Qgis.emit Qgis.set_layer Qgis.get_layer
     Qgis.show_error Qgis.show_info Qgis.confirm_action
     Qgis.updateFeature Qgis.addFeature
     EditSession.handle_edit_mode EditSession.commit_changes
     EditSession.rollback_changes EditSession.exit_edit_mode
     Qgis.layer Qgis.log Qgis.session Qgis.stored Qgis.start_editing
     Qgis.update_feature Qgis.add_feature Qgis.commit
     Qgis.geometry Qgis.fid Qgis.geometry_kind Qgis.isEditable
     fst snd negb andb orb Heads.caught_by_head
     fmap option_fmap option_map].

Ltac paths :=
  repeat (step;
          match goal with
          | |- context [match ?x with _ => _ end] =>
              lazymatch x with
              | context [match _ with _ => _ end] => fail
              | _ => destruct x eqn:?
              end
          end).

Ltac same_calls :=
  rewrite ?existsb_app; cbn [existsb session_call];
  rewrite ?orb_false_r; reflexivity.

(** [execute] makes no session call and leaves the layer, however it
    ends; when it reaches the map tool, the dict it stored holds
    [create_copy] and the edit handling flag as the settings give it. *)
Lemma execute_record (Geom : Type)
    (parse_float : string -> option Q) (parse_int : string -> option Z)
    (repr : Value -> string) (isEmpty : Geom -> bool)
    (env : Env (Geom := Geom)) (w : World Geom) :
  existsb session_call
    (log (execute parse_float parse_int repr isEmpty env w).2)
  = existsb session_call (log w)
  /\ layer (execute parse_float parse_int repr isEmpty env w).2 = layer w
  /\ (forall r,
        (execute parse_float parse_int repr isEmpty env w).1 = Py.Next r ->
        (exists create_copy,
            r.1 !! "create_copy" = Some (VBool create_copy))
        /\ r.1 !! "handle_edit_mode_automatically"
           = Some (VBool (flag env "handle_edit_mode_automatically"))).
Proof.
  unfold execute, Heads.execute_head.
  paths.
  all: step.
  all: split; [same_calls |].
  all: split; [reflexivity |].
  all: intros r H; try discriminate H.
  all: injection H as <-.
  all: split; [eexists; reflexivity | reflexivity].
Qed.

(** The move with edit handling off makes no session call. *)
Lemma move_without_handling (Geom : Type)
    (repr : Value -> string)
    (moved_distance : Feature Geom -> Geom -> PyExn + Q)
    (distance_text : Q -> string)
    (decorate : gmap string Value -> string -> string)
    (menv : MovePoint.Env) (feature : Feature Geom) (new_geometry : Geom)
    (w : World Geom) :
  MovePoint.truthy menv "handle_edit_mode_automatically" true = false ->
  existsb session_call
    (log (MovePoint._move_feature_to_geometry repr moved_distance
            distance_text decorate menv feature new_geometry w).2)
  = existsb session_call (log w).
Proof.
  intros Hoff. unfold MovePoint._move_feature_to_geometry.
  rewrite Hoff.
  paths.
  all: step.
  all: same_calls.
Qed.

End SessionFacts.

(** X15: in [move_point_with_click], the separate "Create Copy?" dialog
    cannot choose the move. With [use_unified_dialog] off, [ask_create_copy]
    on and [default_copy_choice] "ask", [execute] reaches the map tool only
    when the button pressed was "Yes, Create Copy", and it then stores
    [create_copy] as true: "No, Move Original" ends the dialog with
    [done(0)], which is [QDialog.Rejected], so [get_choice] answers [None]
    and [execute] returns as for "Cancel". *)
Theorem copy_dialog_no_button_cancels
    (Geom : Type) (parse_float : string -> option Q)
    (parse_int : string -> option Z) (repr : Settings.Value -> string)
    (isEmpty : Geom -> bool) (env : MovePointSession.Env (Geom := Geom))
    (w : Qgis.World Geom)
    (r : gmap string Settings.Value * MovePointSession.Detected) :
  MovePointSession.flag env "use_unified_dialog" = false ->
  MovePointSession.flag env "ask_create_copy" = true ->
  MovePointSession.text repr env "default_copy_choice" = "ask" ->
  (MovePointSession.execute parse_float parse_int repr isEmpty env w).1
  = Py.Next r ->
  MovePointSession.pressed env = MovePointSession.YesCreateCopy
  /\ r.1 !! "create_copy" = Some (Settings.VBool true)
  /\ MovePointSession.get_choice MovePointSession.NoMoveOriginal = None.
Proof.
  intros Hlegacy Hask Hchoice.
  unfold MovePointSession.execute, Heads.execute_head.
  rewrite Hlegacy, Hask, Hchoice.
  destruct (MovePointSession.pressed env) eqn:Hpressed.
  all: cbn [MovePointSession.get_choice MovePointSession.exec_ String.eqb
            Ascii.eqb Bool.eqb andb orb MovePointSession.Rejected Z.eqb
            Pos.eqb].
  all: SessionFacts.paths.
  all: SessionFacts.step.
  all: intros H; try discriminate H.
  all: injection H as <-.
  all: split; [reflexivity |].
  all: split; reflexivity.
Qed.

Lemma copy_dialog_no_button_cancels_witness :
  let detected :=
    {| MovePointSession.feature :=
         {| Qgis.fid := 3; Qgis.geometry := Some "point";
            Qgis.geometry_kind := Qgis.PointGeometry |};
       MovePointSession.layer_name := "wells";
       MovePointSession.geometry_type := "point" |} in
  let env :=
    {| MovePointSession.store :=
         {[ Settings.key "move_point_with_click" "use_unified_dialog"
              := Settings.VBool false ]};
       MovePointSession.detected_features := [detected];
       MovePointSession.canvas := true;
       MovePointSession.point_text := inr "(1.000000, 2.000000)";
       MovePointSession.unified_exec := MovePointSession.Accepted;
       MovePointSession.checkbox := fun b => b;
       MovePointSession.confirmed := true;
       MovePointSession.pressed := MovePointSession.YesCreateCopy;
       MovePointSession.format_elsewhere := inl ValueError;
       MovePointSession.tool_created := inr tt |} in
  let run :=
    MovePointSession.execute (fun _ => None) (fun _ => None) (fun _ => "3")
      (fun g => String.eqb g "") env
      {| Qgis.layer := Scenario.parcels; Qgis.log := [] |} in
  let r :=
    match run.1 with
    | Py.Next r => r
    | _ => (∅, detected)
    end in
  MovePointSession.flag env "use_unified_dialog" = false
  /\ MovePointSession.flag env "ask_create_copy" = true
  /\ MovePointSession.text (fun _ => "3") env "default_copy_choice" = "ask"
  /\ run.1 = Py.Next r
  /\ r.1 !! "create_copy" = Some (Settings.VBool true).
Proof.
  intros detected env run r.
  assert (MovePointSession.flag env "use_unified_dialog" = false) as H1
    by (by vm_compute).
  assert (MovePointSession.flag env "ask_create_copy" = true) as H2
    by (by vm_compute).
  assert (MovePointSession.text (fun _ => "3") env "default_copy_choice"
          = "ask") as H3 by (by vm_compute).
  assert (run.1 = Py.Next r) as H4 by reflexivity.
  split; [exact H1 |]. split; [exact H2 |]. split; [exact H3 |].
  split; [exact H4 |].
  exact (proj1 (proj2
    (copy_dialog_no_button_cancels string (fun _ => None) (fun _ => None)
       (fun _ => "3") (fun g => String.eqb g "") env
       {| Qgis.layer := Scenario.parcels; Qgis.log := [] |} r
       H1 H2 H3 H4))).
Defined.

(** X16: switching [handle_edit_mode_automatically] off is honoured from
    the click to the move. When the stored setting is false, one use of
    [move_point_with_click] ([execute], then a press on the canvas handled
    by the map tool: a left click that moves or copies the point, a right
    click that cancels, or any other button) calls none of
    [handle_edit_mode], [commit_changes], [rollback_changes] and
    [exit_edit_mode], whatever the other settings, the dialogs' answers and
    the provider's. *)
Theorem edit_handling_off_makes_no_session_call
    (Geom : Type) (P : Mutating.Platform Geom)
    (env : MovePointSession.Env (Geom := Geom))
    (tool : MovePointSession.ToolEnv) (button : Z) (new_geometry : Geom)
    (l : Qgis.Layer Geom) :
  MovePointSession.flag env "handle_edit_mode_automatically" = false ->
  existsb MovePointSession.session_call
    (Qgis.log
       (MovePointSession.place P env tool button new_geometry
          {| Qgis.layer := l; Qgis.log := [] |}).2)
  = false.
Proof.
  intros Hoff. unfold MovePointSession.place.
  unfold Py.bind at 1.
  destruct (SessionFacts.execute_record Geom
    (Mutating.parse_float P) (Mutating.parse_int P) (Mutating.repr P)
    (Mutating.isEmpty P) env {| Qgis.layer := l; Qgis.log := [] |})
    as (Hcalls & _ & Hnext).
  destruct (MovePointSession.execute _ _ _ _ env _) as [[r| |e] w'] eqn:Hrun.
  - destruct (Hnext r eq_refl) as [_ Hstored].
    destruct r as [settings detected_feature]. cbn [fst] in Hstored.
    cbn [snd] in Hcalls.
    unfold MovePointSession.canvasPressEvent.
    destruct (button =? 1)%Z; [| destruct (button =? 2)%Z].
    + rewrite SessionFacts.move_without_handling; [exact Hcalls |].
      unfold MovePoint.truthy. cbn [MovePoint.current_settings].
      rewrite Hstored. exact Hoff.
    + unfold MovePointSession._cancel_move, Py.when, Qgis.show_info,
        Qgis.emit, Py.ret.
      destruct (Settings.py_bool _); cbn [snd Qgis.log];
        [rewrite existsb_app, Hcalls; reflexivity | exact Hcalls].
    + exact Hcalls.
  - exact Hcalls.
  - exact Hcalls.
Qed.

Lemma edit_handling_off_makes_no_session_call_witness :
  let detected :=
    {| MovePointSession.feature :=
         {| Qgis.fid := 7; Qgis.geometry := Some "point";
            Qgis.geometry_kind := Qgis.PointGeometry |};
       MovePointSession.layer_name := "wells";
       MovePointSession.geometry_type := "point" |} in
  let env :=
    {| MovePointSession.store :=
         {[ Settings.key "move_point_with_click"
              "handle_edit_mode_automatically" := Settings.VBool false ]};
       MovePointSession.detected_features := [detected];
       MovePointSession.canvas := true;
       MovePointSession.point_text := inr "(1.000000, 2.000000)";
       MovePointSession.unified_exec := MovePointSession.Accepted;
       MovePointSession.checkbox := fun b => b;
       MovePointSession.confirmed := true;
       MovePointSession.pressed := MovePointSession.YesCreateCopy;
       MovePointSession.format_elsewhere := inl ValueError;
       MovePointSession.tool_created := inr tt |} in
  let tool :=
    {| MovePointSession.tool_settings := ∅;
       MovePointSession.provider := Runs.accepting;
       MovePointSession.copy_message := "";
       MovePointSession.new_feature_truthy := true;
       MovePointSession.tool_format_elsewhere := inl ValueError |} in
  let run :=
    MovePointSession.place Scenario.platform env tool 1 "moved point"
      {| Qgis.layer := Scenario.parcels_in_edit; Qgis.log := [] |} in
  MovePointSession.flag env "handle_edit_mode_automatically" = false
  /\ Qgis.UpdateFeature 7 true ∈ Qgis.log run.2
  /\ existsb MovePointSession.session_call (Qgis.log run.2) = false.
Proof.
  intros detected env tool run.
  assert (MovePointSession.flag env "handle_edit_mode_automatically" = false)
    as H by (by vm_compute).
  split; [exact H |].
  split; [TraceTactics.recorded |].
  exact (edit_handling_off_makes_no_session_call string Scenario.platform
           env tool 1 "moved point" Scenario.parcels_in_edit H).
Defined.
